(** * mbti-bot: the conversation service (aiService) and its configuration

    A shallow embedding of the assessment service of the repository: the
    analysis trigger, the dimension-coverage heuristic, the tolerant parser
    of the analysis reply, and the session operations around the chat
    gateway.

    Conventions of the embedding.
    - A JavaScript string is the list of its UTF-16 code units.  String
      literals of the source are written as they appear there and decoded
      by [js].
    - Built-ins whose tables are not part of the repository
      ([String.prototype.toLowerCase], [JSON.parse]) are variables of the
      sections that use them; [JSON_parse_ref] is an executable instance
      of the JSON grammar used to run the examples.
    - The chat gateway ([chatModel.value.invoke]) is the environment: every
      operation takes the outcome of each gateway call it awaits as an
      argument.
    - [questionsAsked] is a natural number; the source's [++] on a double
      is exact below 2^53.

    Beyond the service proper the file embeds the prompts and requests it
    builds, the configuration check and model start, and the script of
    the chat view that calls the service. *)

From Stdlib Require Import List NArith ZArith Bool Lia String Ascii Permutation.
From Stdlib Require Import Floats.SpecFloat.
Import ListNotations.

Set Warnings "-register-all".

(* ================================================================= *)
(** * Strings *)

Module JsString.

(** A string value: its UTF-16 code units. *)
Definition jsstring := list N.

(** ** Literals *)

Fixpoint bytes_of_string (s : string) : list N :=
  match s with
  | EmptyString => []
  | String a r => N_of_ascii a :: bytes_of_string r
  end.

(** Code units of one code point. *)
Definition utf16_of_codepoint (cp : N) : list N :=
  if (cp <? 65536)%N then [cp]
  else let v := (cp - 65536)%N in
       [(55296 + v / 1024)%N; (56320 + v mod 1024)%N].

Definition cont (b : N) : N := (b mod 64)%N.

(** UTF-8 bytes of a source literal to UTF-16 code units. *)
Fixpoint utf16_of_utf8 (bs : list N) : jsstring :=
  match bs with
  | [] => []
  | b0 :: r0 =>
    if (b0 <? 128)%N then b0 :: utf16_of_utf8 r0
    else match r0 with
      | [] => [65533%N]
      | b1 :: r1 =>
        if (b0 <? 224)%N then
          utf16_of_codepoint ((b0 mod 32) * 64 + cont b1) ++ utf16_of_utf8 r1
        else match r1 with
          | [] => [65533%N]
          | b2 :: r2 =>
            if (b0 <? 240)%N then
              utf16_of_codepoint ((b0 mod 16) * 4096 + cont b1 * 64 + cont b2)
                ++ utf16_of_utf8 r2
            else match r2 with
              | [] => [65533%N]
              | b3 :: r3 =>
                utf16_of_codepoint
                  ((b0 mod 8) * 262144 + cont b1 * 4096 + cont b2 * 64 + cont b3)
                  ++ utf16_of_utf8 r3
              end
          end
      end
  end.

Definition js (s : string) : jsstring := utf16_of_utf8 (bytes_of_string s).

(** ** Comparison *)

Fixpoint eqb (s t : jsstring) : bool :=
  match s, t with
  | [], [] => true
  | a :: s', b :: t' => (a =? b)%N && eqb s' t'
  | _, _ => false
  end.

(** ** [String.prototype.startsWith], [String.prototype.includes] *)

Fixpoint startsWith (s p : jsstring) {struct p} : bool :=
  match p with
  | [] => true
  | c :: p' =>
    match s with
    | [] => false
    | d :: s' => (d =? c)%N && startsWith s' p'
    end
  end.

Fixpoint includes (s kw : jsstring) : bool :=
  startsWith s kw ||
  match s with
  | [] => false
  | _ :: s' => includes s' kw
  end.

(** What [includes] decides: an occurrence of [kw] in [s]. *)
Definition substring_of (kw s : jsstring) : Prop :=
  exists pre post, s = pre ++ kw ++ post.

(** ** [Array.prototype.join] on an array of strings *)

Fixpoint join (sep : jsstring) (l : list jsstring) : jsstring :=
  match l with
  | [] => []
  | x :: rest =>
    match rest with
    | [] => x
    | _ :: _ => x ++ sep ++ join sep rest
    end
  end.

(** ** [s.split('\n')] *)

Definition LF : N := 10.

Fixpoint split_lines (s : jsstring) : list jsstring :=
  match s with
  | [] => [[]]
  | c :: r =>
    if (c =? LF)%N then [] :: split_lines r
    else match split_lines r with
         | l :: ls => (c :: l) :: ls
         | [] => [[c]]
         end
  end.

(** ** The two regular expressions of the parser *)

Definition LBRACE : N := 123.
Definition RBRACE : N := 125.

(** Longest prefix of [s] that ends with [c]. *)
Fixpoint through_last (c : N) (s : jsstring) : option jsstring :=
  match s with
  | [] => None
  | x :: r =>
    match through_last c r with
    | Some p => Some (x :: p)
    | None => if (x =? c)%N then Some [x] else None
    end
  end.

(** [content.match(/\{[\s\S]*\}/)]: leftmost opening brace, then greedily
    through the last closing brace; [None] is JavaScript's [null]. *)
Fixpoint match_braces (content : jsstring) : option jsstring :=
  match content with
  | [] => None
  | c :: r =>
    if (c =? LBRACE)%N then
      match through_last RBRACE r with
      | Some body => Some (c :: body)
      | None => None
      end
    else match_braces r
  end.

Definition isUpper (c : N) : bool := (65 <=? c)%N && (c <=? 90)%N.

(** [line.match(/[A-Z]{4}/)]: the leftmost four consecutive capitals. *)
Fixpoint match_upper4 (s : jsstring) : option jsstring :=
  match s with
  | [] => None
  | a :: r =>
    match r with
    | b :: c :: d :: _ =>
      if isUpper a && isUpper b && isUpper c && isUpper d
      then Some [a; b; c; d]
      else match_upper4 r
    | _ => None
    end
  end.

End JsString.

Import JsString.


(* ================================================================= *)
(** * Values *)

Module JsValue.

(** The values that flow through the service: what [JSON.parse] can
    return, plus [undefined].  An object is the list of its own
    properties. *)
Inductive jsvalue : Type :=
| JUndefined
| JNull
| JBool (b : bool)
| JNumber (x : spec_float)
| JString (s : jsstring)
| JArray (items : list jsvalue)
| JObject (props : list (jsstring * jsvalue)).

(** The double nearest to the decimal [(-1)^neg * m * 10^e10]: the value
    of a numeric literal. *)
Definition double_of_decimal (neg : bool) (m : N) (e10 : Z) : spec_float :=
  match m with
  | N0 => S754_zero neg
  | Npos p =>
    match e10 with
    | Zneg k =>
      SFdiv 53 1024 (S754_finite neg p 0) (S754_finite false (10 ^ k) 0)
    | _ => binary_round 53 1024 neg (p * Z.to_pos (10 ^ e10)) 0
    end
  end.

(** The literals [0.6], [0.7], [0.75] of the source. *)
Definition num_0_6 : spec_float := Eval cbv in double_of_decimal false 6 (-1).
Definition num_0_7 : spec_float := Eval cbv in double_of_decimal false 7 (-1).
Definition num_0_75 : spec_float := Eval cbv in double_of_decimal false 75 (-2).

(** ToBoolean. *)
Definition truthy (v : jsvalue) : bool :=
  match v with
  | JUndefined | JNull => false
  | JBool b => b
  | JNumber (S754_zero _) | JNumber S754_nan => false
  | JNumber _ => true
  | JString s => match s with [] => false | _ => true end
  | JArray _ | JObject _ => true
  end.

Fixpoint lookup (k : jsstring) (props : list (jsstring * jsvalue)) : option jsvalue :=
  match props with
  | [] => None
  | (k', v) :: rest => if JsString.eqb k' k then Some v else lookup k rest
  end.

(** [v.k] for a property name [k] that no prototype defines (the parser
    reads [mbtiType], [dimensions], [description]): [None] is the
    TypeError raised on [null] and [undefined]. *)
Definition get_prop (v : jsvalue) (k : jsstring) : option jsvalue :=
  match v with
  | JUndefined | JNull => None
  | JObject props =>
    match lookup k props with
    | Some x => Some x
    | None => Some JUndefined
    end
  | _ => Some JUndefined
  end.

Definition keys (v : jsvalue) : list jsstring :=
  match v with
  | JObject props => map fst props
  | _ => []
  end.

End JsValue.

Import JsValue.

(* ================================================================= *)
(** * Configuration (config.js) *)

Record Config : Type := {
  minQuestionsBeforeAnalysis : N;
  analysisKeywords : list jsstring
}.

(** The analysis part of [AI_CONFIG]. *)
Definition AI_CONFIG : Config := {|
  minQuestionsBeforeAnalysis := 4;
  analysisKeywords :=
    [ js "分析"; js "总结"; js "结论"; js "性格类型"; js "MBTI";
      js "判断"; js "评估"; js "看起来"; js "根据"; js "综合" ]
|}.

(* ================================================================= *)
(** * Session state *)

Inductive Msg : Type :=
| HumanMessage (content : jsstring)
| AIMessage (content : jsstring).

Definition content (m : Msg) : jsstring :=
  match m with
  | HumanMessage c => c
  | AIMessage c => c
  end.

Definition isAI (m : Msg) : bool :=
  match m with
  | AIMessage _ => true
  | HumanMessage _ => false
  end.

Record UserInfo : Type := {
  mbtiType : jsvalue;
  traits : jsvalue;
  questionsAsked : N;
  collectedData : jsvalue
}.

(** The module-level state of the service.  [isModelReady] is the
    computed [isInitialized.value && chatModel.value !== null]. *)
Record State : Type := {
  isModelReady : bool;
  conversationHistory : list Msg;
  isAnalyzing : bool;
  userInfo : UserInfo
}.

Definition initialUserInfo : UserInfo := {|
  mbtiType := JNull;
  traits := JObject [];
  questionsAsked := 0;
  collectedData := JObject []
|}.

Definition initialState (ready : bool) : State := {|
  isModelReady := ready;
  conversationHistory := [];
  isAnalyzing := false;
  userInfo := initialUserInfo
|}.

Definition set_history (st : State) (h : list Msg) : State :=
  {| isModelReady := isModelReady st; conversationHistory := h;
     isAnalyzing := isAnalyzing st; userInfo := userInfo st |}.

Definition set_isAnalyzing (st : State) (b : bool) : State :=
  {| isModelReady := isModelReady st;
     conversationHistory := conversationHistory st;
     isAnalyzing := b; userInfo := userInfo st |}.

Definition set_userInfo (st : State) (u : UserInfo) : State :=
  {| isModelReady := isModelReady st;
     conversationHistory := conversationHistory st;
     isAnalyzing := isAnalyzing st; userInfo := u |}.

(** [conversationHistory.push(m)] *)
Definition push (st : State) (m : Msg) : State :=
  set_history st (conversationHistory st ++ [m]).

(** [userInfo.questionsAsked++] *)
Definition incrQuestionsAsked (st : State) : State :=
  let u := userInfo st in
  set_userInfo st
    {| mbtiType := mbtiType u; traits := traits u;
       questionsAsked := questionsAsked u + 1;
       collectedData := collectedData u |}.

(** [userInfo.mbtiType = v] *)
Definition set_mbtiType (st : State) (v : jsvalue) : State :=
  let u := userInfo st in
  set_userInfo st
    {| mbtiType := v; traits := traits u;
       questionsAsked := questionsAsked u;
       collectedData := collectedData u |}.

(* ================================================================= *)
(** * Analysis trigger *)

Inductive Axis : Type := EI | SN | TF | JP.

Definition axes : list Axis := [EI; SN; TF; JP].

Definition Axis_eqb (a b : Axis) : bool :=
  match a, b with
  | EI, EI | SN, SN | TF, TF | JP, JP => true
  | _, _ => false
  end.

(** The keyword table of [hasCollectedEnoughDimensionInfo], in the order
    [Object.entries] enumerates it. *)
Definition dimensionKeywords : list (Axis * list jsstring) :=
  [ (EI, [js "聚会"; js "社交"; js "独处"; js "交流"; js "朋友"; js "人群"; js "安静"; js "热闹"]);
    (SN, [js "细节"; js "直觉"; js "可能性"; js "未来"; js "现实"; js "抽象"; js "具体"; js "想象"]);
    (TF, [js "决定"; js "感受"; js "逻辑"; js "情感"; js "理性"; js "价值观"; js "公平"; js "和谐"]);
    (JP, [js "计划"; js "灵活"; js "规律"; js "随性"; js "截止日期"; js "自由"; js "结构"; js "变化"]) ].

Definition keywordsOf (a : Axis) : list jsstring :=
  match find (fun e => Axis_eqb (fst e) a) dimensionKeywords with
  | Some e => snd e
  | None => []
  end.

Section Trigger.

(** [String.prototype.toLowerCase]. *)
Variable toLowerCase : jsstring -> jsstring.

(** The text the heuristic searches. *)
Definition conversationText (history : list Msg) : jsstring :=
  toLowerCase (join (js " ") (map content history)).

(** The loop over [Object.entries(dimensionKeywords)]. *)
Definition coveredDimensions (text : jsstring) : N :=
  fold_left
    (fun covered entry =>
       let hasDimensionInfo :=
         existsb (fun keyword => includes text keyword) (snd entry) in
       if hasDimensionInfo then (covered + 1)%N else covered)
    dimensionKeywords 0%N.

Definition hasCollectedEnoughDimensionInfo (st : State) : bool :=
  (3 <=? coveredDimensions (conversationText (conversationHistory st)))%N.

Definition shouldAnalyze (cfg : Config) (st : State) (aiResponse : jsstring) : bool :=
  let hasEnoughQuestions :=
    (minQuestionsBeforeAnalysis cfg <=? questionsAsked (userInfo st))%N in
  let hasAnalysisIntent :=
    existsb (fun keyword => includes aiResponse keyword) (analysisKeywords cfg) in
  let hasEnoughInfo := hasCollectedEnoughDimensionInfo st in
  hasEnoughQuestions && (hasAnalysisIntent || hasEnoughInfo).

End Trigger.

(** [toLowerCase] on texts whose only cased characters are the ASCII
    letters; the instance the examples run with. *)
Definition toLowerCase_ascii (s : jsstring) : jsstring :=
  map (fun c => if isUpper c then (c + 32)%N else c) s.

(** The test the loop makes for one axis. *)
Definition axisCoveredb (text : jsstring) (a : Axis) : bool :=
  existsb (fun keyword => includes text keyword) (keywordsOf a).

(** ** The trigger in the words of the specification *)

(** Some keyword of the axis occurs in the text. *)
Definition axisCovered (a : Axis) (text : jsstring) : Prop :=
  exists keyword, In keyword (keywordsOf a) /\ substring_of keyword text.

(** Some configured trigger phrase occurs in the reply. *)
Definition hasTriggerPhrase (cfg : Config) (reply : jsstring) : Prop :=
  exists keyword, In keyword (analysisKeywords cfg) /\ substring_of keyword reply.

(** At least three of the four axes are covered. *)
Definition threeAxesCovered (text : jsstring) : Prop :=
  exists l : list Axis,
    NoDup l /\ 3 <= List.length l /\ forall a, In a l -> axisCovered a text.

(* ================================================================= *)
(** * Result parser *)

(** ** Tier 3: synthesis from a recovered type *)

(** [chars[i]] of [mbtiType.split('')]. *)
Definition charAt (chars : jsstring) (i : nat) : jsvalue :=
  match nth_error chars i with
  | Some c => JString [c]
  | None => JUndefined
  end.

(** [chars[i] === 'X'] for a one-letter literal. *)
Definition charIs (chars : jsstring) (i : nat) (letter : jsstring) : bool :=
  match nth_error chars i with
  | Some c => JsString.eqb [c] letter
  | None => false
  end.

Definition dimensionResult (type : jsvalue) (confidence : spec_float)
    (reason : jsstring) : jsvalue :=
  JObject [ (js "type", type);
            (js "confidence", JNumber confidence);
            (js "reason", JString reason) ].

Definition generateDimensionsAnalysis (mbtiType : jsstring) : jsvalue :=
  let chars := mbtiType in
  JObject
    [ (js "EI", dimensionResult (charAt chars 0) num_0_75
         (js "基于对话分析，用户表现出"
            ++ (if charIs chars 0 (js "E") then js "外向" else js "内向")
            ++ js "的特征"));
      (js "SN", dimensionResult (charAt chars 1) num_0_75
         (js "用户在信息处理上偏向"
            ++ (if charIs chars 1 (js "S") then js "感觉" else js "直觉")
            ++ js "型"));
      (js "TF", dimensionResult (charAt chars 2) num_0_75
         (js "决策风格倾向于"
            ++ (if charIs chars 2 (js "T") then js "理性思考" else js "情感考虑")));
      (js "JP", dimensionResult (charAt chars 3) num_0_75
         (js "生活方式更偏向"
            ++ (if charIs chars 3 (js "J") then js "有序规划" else js "灵活适应"))) ].

(** An entry of [typeDescriptions], or what reading the four fields of
    another value gives. *)
Record TypeInfo : Type := {
  description : jsvalue;
  strengths : jsvalue;
  developmentAreas : jsvalue;
  careerSuggestions : jsvalue
}.

Definition strings (l : list string) : jsvalue :=
  JArray (map (fun s => JString (js s)) l).

Definition typeInfo_ENFP : TypeInfo := {|
  description := JString (js "ENFP（倡导者）是充满热情和创造力的理想主义者，善于激励他人并发现新的可能性。");
  strengths := strings ["富有创造力"; "善于激励他人"; "适应性强"; "充满热情"];
  developmentAreas := strings ["提高专注力"; "加强细节管理"; "学会处理批评"];
  careerSuggestions := strings ["创意设计"; "教育培训"; "人力资源"; "媒体传播"]
|}%string.

Definition typeInfo_INTJ : TypeInfo := {|
  description := JString (js "INTJ（建筑师）是独立的思想家，具有强烈的直觉和战略思维能力。");
  strengths := strings ["战略思维"; "独立工作"; "系统性思考"; "目标导向"];
  developmentAreas := strings ["改善人际交往"; "增强灵活性"; "学会团队合作"];
  careerSuggestions := strings ["系统分析"; "研究开发"; "战略规划"; "技术管理"]
|}%string.

(** The own keys of [typeDescriptions]. *)
Definition typeDescriptions : list (jsstring * TypeInfo) :=
  [ (js "ENFP", typeInfo_ENFP); (js "INTJ", typeInfo_INTJ) ].

(** The property names every object inherits from [Object.prototype]; all
    of them are truthy there, and none of those values has one of the
    four fields. *)
Definition inheritedNames : list jsstring :=
  map js [ "constructor"; "hasOwnProperty"; "isPrototypeOf";
           "propertyIsEnumerable"; "toLocaleString"; "toString"; "valueOf";
           "__proto__"; "__defineGetter__"; "__defineSetter__";
           "__lookupGetter__"; "__lookupSetter__" ]%string.

Definition typeInfo_inherited : TypeInfo := {|
  description := JUndefined;
  strengths := JUndefined;
  developmentAreas := JUndefined;
  careerSuggestions := JUndefined
|}.

Fixpoint lookupTypeInfo (k : jsstring) (table : list (jsstring * TypeInfo))
    : option TypeInfo :=
  match table with
  | [] => None
  | (k', v) :: rest => if JsString.eqb k' k then Some v else lookupTypeInfo k rest
  end.

(** [typeDescriptions[mbtiType] || typeDescriptions['ENFP']] *)
Definition typeInfoFor (mbtiType : jsstring) : TypeInfo :=
  match lookupTypeInfo mbtiType typeDescriptions with
  | Some info => info
  | None =>
    if existsb (JsString.eqb mbtiType) inheritedNames
    then typeInfo_inherited
    else typeInfo_ENFP
  end.

Definition generateBasicAnalysis (mbtiType : jsstring) : jsvalue :=
  let typeInfo := typeInfoFor mbtiType in
  JObject
    [ (js "mbtiType", JString mbtiType);
      (js "confidence", JNumber num_0_7);
      (js "dimensions", generateDimensionsAnalysis mbtiType);
      (js "description", description typeInfo);
      (js "strengths", strengths typeInfo);
      (js "developmentAreas", developmentAreas typeInfo);
      (js "careerSuggestions", careerSuggestions typeInfo) ].

(** ** Tier 0: the default result *)

Definition generateFallbackAnalysis : jsvalue :=
  JObject
    [ (js "mbtiType", JString (js "ENFP"));
      (js "confidence", JNumber num_0_6);
      (js "dimensions", JObject
         [ (js "EI", dimensionResult (JString (js "E")) num_0_6
                       (js "基于有限的对话信息推测用户偏向外向"));
           (js "SN", dimensionResult (JString (js "N")) num_0_6
                       (js "用户表现出一定的直觉型特征"));
           (js "TF", dimensionResult (JString (js "F")) num_0_6
                       (js "决策时似乎更重视人际关系和情感因素"));
           (js "JP", dimensionResult (JString (js "P")) num_0_6
                       (js "表现出较强的灵活性和开放性")) ]);
      (js "description", JString (js "基于有限的对话信息，初步分析显示用户可能属于ENFP类型。建议进行更深入的对话以获得更准确的分析结果。"));
      (js "strengths", strings ["善于交流"; "富有创意"; "适应性强"; "关心他人"]%string);
      (js "developmentAreas", strings ["需要更多信息来准确评估发展领域"]%string);
      (js "careerSuggestions", strings ["建议进行更详细的对话以提供准确的职业建议"]%string) ].

(** ** Tier 2: the line scan *)

(** Whether the scan looks at this line. *)
Definition mentionsType (line : jsstring) : bool :=
  includes line (js "mbtiType") || includes line (js "类型").

(** The [for (const line of lines)] loop: the value of [result.mbtiType]
    when it ends, [''] when no line gave a match. *)
Fixpoint scanLines (lines : list jsstring) : jsstring :=
  match lines with
  | [] => []
  | line :: rest =>
    if mentionsType line then
      match match_upper4 line with
      | Some m => m
      | None => scanLines rest
      end
    else scanLines rest
  end.

(** [parseAlternativeFormat]; [JNull] is [null].  Nothing in its [try]
    block throws on a string. *)
Definition parseAlternativeFormat (content : jsstring) : jsvalue :=
  let lines := split_lines content in
  let result_mbtiType := scanLines lines in
  if truthy (JString result_mbtiType)
  then generateBasicAnalysis result_mbtiType
  else JNull.

(** ** Tier 1 and the chain *)

Section Parser.

(** [JSON.parse]: [None] is the SyntaxError it throws. *)
Variable JSON_parse : jsstring -> option jsvalue.

(** [analysis.mbtiType && analysis.dimensions && analysis.description],
    as a condition; [None] when a property access throws. *)
Definition hasRequiredFields (analysis : jsvalue) : option bool :=
  match get_prop analysis (js "mbtiType") with
  | None => None
  | Some a =>
    if truthy a then
      match get_prop analysis (js "dimensions") with
      | None => None
      | Some b =>
        if truthy b then
          match get_prop analysis (js "description") with
          | None => None
          | Some c => Some (truthy c)
          end
        else Some false
      end
    else Some false
  end.

(** [parseAnalysisResult]: every exception raised inside the [try] block
    ends in the [catch], which returns [null]. *)
Definition parseAnalysisResult (content : jsstring) : jsvalue :=
  match match_braces content with
  | Some jsonMatch =>
    match JSON_parse jsonMatch with
    | None => JNull
    | Some analysis =>
      match hasRequiredFields analysis with
      | None => JNull
      | Some true => analysis
      | Some false => parseAlternativeFormat content
      end
    end
  | None => parseAlternativeFormat content
  end.

End Parser.

(* ================================================================= *)
(** * Session operations *)

(** How a gateway call ([chatModel.value.invoke]) settles. *)
Inductive GatewayResult : Type :=
| GatewayReply (content : jsstring)
| GatewayError (message : jsstring).

(** How a call of the service ends: a value, or a thrown [Error] with its
    message. *)
Inductive Completion (A : Type) : Type :=
| Returns (a : A)
| Throws (message : jsstring).

Arguments Returns {A} a.
Arguments Throws {A} message.

(** The object [sendMessage] resolves to. *)
Record SendResult : Type := {
  message : jsstring;
  analysis : jsvalue;
  isComplete : bool
}.

(** Where [sendMessage] stands after the reply of the gateway. *)
Inductive AfterReply : Type :=
| Finished (c : Completion SendResult)
| AnalysisCall (responseContent : jsstring).

Definition notReadyWarning : jsstring :=
  js "⚠️ DeepSeek AI模型未准备就绪，请检查配置文件中的API Key设置".

Definition welcomeFallback : jsstring :=
  js "你好！我是你的MBTI性格分析师。让我们开始了解你的性格特点吧！请告诉我，在一个聚会上，你通常更愿意与几个熟悉的朋友深入交谈，还是喜欢认识更多新朋友？".

(** [resetConversation] *)
Definition resetConversation (st : State) : State := {|
  isModelReady := isModelReady st;
  conversationHistory := [];
  isAnalyzing := false;
  userInfo := {| mbtiType := JNull; traits := JObject [];
                 questionsAsked := 0; collectedData := JObject [] |}
|}.

Definition getConversationHistory (st : State) : list Msg :=
  conversationHistory st.

Definition getUserInfo (st : State) : UserInfo := userInfo st.

Section Service.

Variable toLowerCase : jsstring -> jsstring.
Variable JSON_parse : jsstring -> option jsvalue.
Variable cfg : Config.

(** ** [performMBTIAnalysis] *)

(** Up to the [await]: [false] when the guard returns [null] at once,
    [true] when the flag is taken and the analysis call goes out. *)
Definition performMBTIAnalysis_begin (st : State) : State * bool :=
  if isAnalyzing st then (st, false)
  else (set_isAnalyzing st true, true).

(** [analysis && analysis.mbtiType], as the value the condition tests. *)
Definition recoveredType (analysis : jsvalue) : jsvalue :=
  if truthy analysis then
    match get_prop analysis (js "mbtiType") with
    | Some v => v
    | None => JUndefined
    end
  else analysis.

(** The [try] body after the [await]: it returns the parsed analysis, or
    throws, either the gateway's error or its own. *)
Definition performMBTIAnalysis_try (st : State) (r : GatewayResult)
    : State * Completion jsvalue :=
  match r with
  | GatewayError msg => (st, Throws msg)
  | GatewayReply analysisResponse =>
    let analysis := parseAnalysisResult JSON_parse analysisResponse in
    if truthy (recoveredType analysis)
    then (set_mbtiType st (recoveredType analysis), Returns analysis)
    else (st, Throws (js "无法解析分析结果"))
  end.

(** From the settling of the analysis call to the end: the [try] body,
    the [catch] that substitutes the default result, and the [finally]
    that releases the flag. *)
Definition performMBTIAnalysis_resume (st : State) (r : GatewayResult)
    : State * jsvalue :=
  let (st1, c) := performMBTIAnalysis_try st r in
  let result :=
    match c with
    | Returns a => a
    | Throws _ => generateFallbackAnalysis
    end in
  (set_isAnalyzing st1 false, result).

(** One uninterrupted execution; [r] is how the analysis call settles if
    it is made. *)
Definition performMBTIAnalysis (st : State) (r : GatewayResult)
    : State * jsvalue :=
  match performMBTIAnalysis_begin st with
  | (st', false) => (st', JNull)
  | (st', true) => performMBTIAnalysis_resume st' r
  end.

(** ** [sendMessage] *)

(** Up to the first [await]. *)
Definition sendMessage_begin (st : State) (userMessage : jsstring)
    : Completion State :=
  if negb (isModelReady st)
  then Throws (js "DeepSeek AI模型未初始化，请检查配置文件")
  else Returns (push st (HumanMessage userMessage)).

(** From the settling of the first call to the next [await] or the end.
    A gateway error is caught and thrown again under the service's
    message. *)
Definition sendMessage_onReply (st : State) (r : GatewayResult)
    : State * AfterReply :=
  match r with
  | GatewayError msg =>
    (st, Finished (Throws (js "AI请求失败: " ++ msg)))
  | GatewayReply response =>
    let st1 := push st (AIMessage response) in
    let st2 := incrQuestionsAsked st1 in
    if shouldAnalyze toLowerCase cfg st2 response then
      match performMBTIAnalysis_begin st2 with
      | (st3, true) => (st3, AnalysisCall response)
      | (st3, false) =>
        (st3, Finished (Returns {| message := response; analysis := JNull;
                                   isComplete := true |}))
      end
    else
      (st2, Finished (Returns {| message := response; analysis := JNull;
                                 isComplete := false |}))
  end.

(** From the settling of the analysis call to the end. *)
Definition sendMessage_onAnalysis (st : State) (response : jsstring)
    (r : GatewayResult) : State * SendResult :=
  let (st', a) := performMBTIAnalysis_resume st r in
  (st', {| message := response; analysis := a; isComplete := true |}).

(** One uninterrupted execution; [r1] settles the chat call, [r2] the
    analysis call if one is made. *)
Definition sendMessage (st : State) (userMessage : jsstring)
    (r1 r2 : GatewayResult) : State * Completion SendResult :=
  match sendMessage_begin st userMessage with
  | Throws e => (st, Throws e)
  | Returns st1 =>
    match sendMessage_onReply st1 r1 with
    | (st2, Finished c) => (st2, c)
    | (st2, AnalysisCall response) =>
      let (st3, res) := sendMessage_onAnalysis st2 response r2 in
      (st3, Returns res)
    end
  end.

(** ** [getWelcomeMessage] *)

Definition getWelcomeMessage_onReply (st : State) (r : GatewayResult)
    : State * jsstring :=
  match r with
  | GatewayReply response => (push st (AIMessage response), response)
  | GatewayError _ => (st, welcomeFallback)
  end.

Definition getWelcomeMessage (st : State) (r : GatewayResult)
    : State * jsstring :=
  if negb (isModelReady st) then (st, notReadyWarning)
  else getWelcomeMessage_onReply st r.

(** ** Interleaved executions

    The service functions are [async]: each runs without interruption
    from one [await] to the next, and other calls of the exported API may
    run while a gateway call is in flight.  A [Task] is a suspended call
    together with the gateway call it waits for. *)

Inductive Task : Type :=
| AwaitReply
| AwaitAnalysis (responseContent : jsstring) (issuedIn : nat)
| AwaitWelcome.

(** The module state, the calls in flight, and three counters that are
    not in the source: the number of resets so far ([session]) and, since
    the last reset, the assistant turns appended by [sendMessage] and by
    [getWelcomeMessage]. *)
Record Sys : Type := {
  state : State;
  pending : list Task;
  session : nat;
  repliesAppended : N;
  welcomesAppended : N
}.

Definition initialSys (ready : bool) : Sys := {|
  state := initialState ready;
  pending := [];
  session := 0;
  repliesAppended := 0;
  welcomesAppended := 0
|}.

Inductive Event : Type :=
| CallSendMessage (userMessage : jsstring)
| CallGetWelcomeMessage
| CallResetConversation
| Settle (i : nat) (r : GatewayResult).

Fixpoint remove_nth {A : Type} (i : nat) (l : list A) : list A :=
  match l with
  | [] => []
  | x :: r =>
    match i with
    | O => r
    | S j => x :: remove_nth j r
    end
  end.

Definition isReply (r : GatewayResult) : bool :=
  match r with
  | GatewayReply _ => true
  | GatewayError _ => false
  end.

(** The continuation of task [t] runs on the result [r]. *)
Definition resume (s : Sys) (rest : list Task) (t : Task) (r : GatewayResult)
    : Sys :=
  match t with
  | AwaitReply =>
    let (st', k) := sendMessage_onReply (state s) r in
    {| state := st';
       pending := match k with
                  | AnalysisCall response =>
                    rest ++ [AwaitAnalysis response (session s)]
                  | Finished _ => rest
                  end;
       session := session s;
       repliesAppended :=
         if isReply r then (repliesAppended s + 1)%N else repliesAppended s;
       welcomesAppended := welcomesAppended s |}
  | AwaitAnalysis response _ =>
    {| state := fst (sendMessage_onAnalysis (state s) response r);
       pending := rest;
       session := session s;
       repliesAppended := repliesAppended s;
       welcomesAppended := welcomesAppended s |}
  | AwaitWelcome =>
    {| state := fst (getWelcomeMessage_onReply (state s) r);
       pending := rest;
       session := session s;
       repliesAppended := repliesAppended s;
       welcomesAppended :=
         if isReply r then (welcomesAppended s + 1)%N else welcomesAppended s |}
  end.

Definition step (s : Sys) (e : Event) : Sys :=
  match e with
  | CallSendMessage userMessage =>
    match sendMessage_begin (state s) userMessage with
    | Throws _ => s
    | Returns st' =>
      {| state := st'; pending := pending s ++ [AwaitReply];
         session := session s;
         repliesAppended := repliesAppended s;
         welcomesAppended := welcomesAppended s |}
    end
  | CallGetWelcomeMessage =>
    if negb (isModelReady (state s)) then s
    else {| state := state s; pending := pending s ++ [AwaitWelcome];
            session := session s;
            repliesAppended := repliesAppended s;
            welcomesAppended := welcomesAppended s |}
  | CallResetConversation =>
    {| state := resetConversation (state s); pending := pending s;
       session := S (session s);
       repliesAppended := 0; welcomesAppended := 0 |}
  | Settle i r =>
    match nth_error (pending s) i with
    | None => s
    | Some t => resume s (remove_nth i (pending s)) t r
    end
  end.

Definition run (s : Sys) (trace : list Event) : Sys := fold_left step trace s.

Definition isAnalysisCall (t : Task) : bool :=
  match t with
  | AwaitAnalysis _ _ => true
  | _ => false
  end.

Definition issuedInSession (n : nat) (t : Task) : bool :=
  match t with
  | AwaitAnalysis _ m => Nat.eqb m n
  | _ => false
  end.

(** Analysis gateway calls in flight. *)
Definition analysesInFlight (s : Sys) : nat :=
  List.length (filter isAnalysisCall (pending s)).

(** Those issued since the last reset. *)
Definition analysesInFlightOfSession (s : Sys) : nat :=
  List.length (filter (issuedInSession (session s)) (pending s)).

(** Assistant turns in the history. *)
Definition assistantTurns (st : State) : N :=
  N.of_nat (List.length (filter isAI (conversationHistory st))).

(** No [resetConversation] of the trace runs while an analysis call is in
    flight. *)
Fixpoint resetsWhenIdle (s : Sys) (trace : list Event) : bool :=
  match trace with
  | [] => true
  | e :: rest =>
    match e with
    | CallResetConversation => Nat.eqb (analysesInFlight s) 0
    | _ => true
    end && resetsWhenIdle (step s e) rest
  end.

End Service.

(* ================================================================= *)
(** * An executable [JSON.parse]

    The JSON grammar (ECMA-404) as a recursive-descent parser, used as the
    instance of [JSON_parse] when the service is run on concrete texts. *)

Module JsonRef.

Definition isWhitespace (c : N) : bool :=
  (c =? 32)%N || (c =? 9)%N || (c =? 10)%N || (c =? 13)%N.

Fixpoint skip_ws (s : jsstring) : jsstring :=
  match s with
  | c :: r => if isWhitespace c then skip_ws r else s
  | [] => []
  end.

Definition isDigit (c : N) : bool := (48 <=? c)%N && (c <=? 57)%N.

Definition hexValue (c : N) : option N :=
  if isDigit c then Some (c - 48)%N
  else if (65 <=? c)%N && (c <=? 70)%N then Some (c - 55)%N
  else if (97 <=? c)%N && (c <=? 102)%N then Some (c - 87)%N
  else None.

(** The character a one-letter escape stands for. *)
Definition simpleEscape (c : N) : option N :=
  if (c =? 34)%N then Some 34%N          (* quotation mark *)
  else if (c =? 92)%N then Some 92%N     (* reverse solidus *)
  else if (c =? 47)%N then Some 47%N     (* solidus *)
  else if (c =? 98)%N then Some 8%N      (* b: backspace *)
  else if (c =? 102)%N then Some 12%N    (* f: form feed *)
  else if (c =? 110)%N then Some 10%N    (* n: line feed *)
  else if (c =? 114)%N then Some 13%N    (* r: carriage return *)
  else if (c =? 116)%N then Some 9%N     (* t: tab *)
  else None.

(** After the opening quote: the decoded string and what follows the
    closing quote. *)
Fixpoint parse_string_body (s : jsstring) : option (jsstring * jsstring) :=
  match s with
  | [] => None
  | c :: r =>
    if (c =? 34)%N then Some ([], r)
    else if (c =? 92)%N then
      match r with
      | [] => None
      | e :: r1 =>
        if (e =? 117)%N then
          match r1 with
          | h1 :: h2 :: h3 :: h4 :: r2 =>
            match hexValue h1, hexValue h2, hexValue h3, hexValue h4 with
            | Some a, Some b, Some c', Some d =>
              match parse_string_body r2 with
              | Some (str, rest) =>
                Some ((a * 4096 + b * 256 + c' * 16 + d)%N :: str, rest)
              | None => None
              end
            | _, _, _, _ => None
            end
          | _ => None
          end
        else
          match simpleEscape e with
          | Some x =>
            match parse_string_body r1 with
            | Some (str, rest) => Some (x :: str, rest)
            | None => None
            end
          | None => None
          end
      end
    else if (c <? 32)%N then None
    else
      match parse_string_body r with
      | Some (str, rest) => Some (c :: str, rest)
      | None => None
      end
  end.

(** A maximal run of digits: its value continuing from [acc], how many
    there were, and the rest. *)
Fixpoint digits (s : jsstring) (acc : N) (count : nat) : N * nat * jsstring :=
  match s with
  | c :: r => if isDigit c then digits r (acc * 10 + (c - 48))%N (S count)
              else (acc, count, s)
  | [] => (acc, count, [])
  end.

(** [-? int frac? exp?] *)
Definition parse_number (s : jsstring) : option (spec_float * jsstring) :=
  let (neg, s1) :=
    match s with
    | c :: r => if (c =? 45)%N then (true, r) else (false, s)
    | [] => (false, s)
    end in
  match s1 with
  | [] => None
  | d :: r =>
    if negb (isDigit d) then None
    else
      let '(int, s2) :=
        if (d =? 48)%N then (0%N, r)
        else let '(v, _, rest) := digits s1 0%N O in (v, rest) in
      let '(mant, fracLen, s3) :=
        match s2 with
        | c :: r2 =>
          if (c =? 46)%N then
            let '(v, n, rest) := digits r2 int O in
            match n with
            | O => (int, None, s2)
            | S _ => (v, Some n, rest)
            end
          else (int, Some O, s2)
        | [] => (int, Some O, s2)
        end in
      match fracLen with
      | None => None
      | Some fl =>
        let expo : option (Z * jsstring) :=
          match s3 with
          | c :: r3 =>
            if (c =? 101)%N || (c =? 69)%N then
              let (eneg, r4) :=
                match r3 with
                | sg :: r3' =>
                  if (sg =? 45)%N then (true, r3')
                  else if (sg =? 43)%N then (false, r3')
                  else (false, r3)
                | [] => (false, r3)
                end in
              let '(v, n, rest) := digits r4 0%N O in
              match n with
              | O => None
              | S _ => Some (if eneg then (- Z.of_N v)%Z else Z.of_N v, rest)
              end
            else Some (0%Z, s3)
          | [] => Some (0%Z, s3)
          end in
        match expo with
        | None => None
        | Some (e, rest) =>
          Some (double_of_decimal neg mant (e - Z.of_nat fl), rest)
        end
      end
  end.

(** A later duplicate of a key replaces the earlier value. *)
Fixpoint set_prop (k : jsstring) (v : jsvalue) (props : list (jsstring * jsvalue))
    : list (jsstring * jsvalue) :=
  match props with
  | [] => [(k, v)]
  | (k', v') :: rest =>
    if JsString.eqb k' k then (k, v) :: rest else (k', v') :: set_prop k v rest
  end.

Definition expect (lit : jsstring) (v : jsvalue) (s : jsstring)
    : option (jsvalue * jsstring) :=
  if startsWith s lit then Some (v, skipn (List.length lit) s) else None.

Fixpoint parse_value (fuel : nat) (s : jsstring) {struct fuel}
    : option (jsvalue * jsstring) :=
  match fuel with
  | O => None
  | S f =>
    match skip_ws s with
    | [] => None
    | c :: r =>
      if (c =? 123)%N then
        match skip_ws r with
        | c' :: r' =>
          if (c' =? 125)%N then Some (JObject [], r')
          else parse_members f (c' :: r') []
        | [] => None
        end
      else if (c =? 91)%N then
        match skip_ws r with
        | c' :: r' =>
          if (c' =? 93)%N then Some (JArray [], r')
          else parse_elements f (c' :: r') []
        | [] => None
        end
      else if (c =? 34)%N then
        match parse_string_body r with
        | Some (str, rest) => Some (JString str, rest)
        | None => None
        end
      else if (c =? 116)%N then expect (js "true") (JBool true) (c :: r)
      else if (c =? 102)%N then expect (js "false") (JBool false) (c :: r)
      else if (c =? 110)%N then expect (js "null") JNull (c :: r)
      else
        match parse_number (c :: r) with
        | Some (x, rest) => Some (JNumber x, rest)
        | None => None
        end
    end
  end

with parse_members (fuel : nat) (s : jsstring)
    (acc : list (jsstring * jsvalue)) {struct fuel}
    : option (jsvalue * jsstring) :=
  match fuel with
  | O => None
  | S f =>
    match skip_ws s with
    | q :: r =>
      if (q =? 34)%N then
        match parse_string_body r with
        | Some (k, r1) =>
          match skip_ws r1 with
          | colon :: r2 =>
            if (colon =? 58)%N then
              match parse_value f r2 with
              | Some (v, r3) =>
                match skip_ws r3 with
                | sep :: r4 =>
                  if (sep =? 44)%N then parse_members f r4 (set_prop k v acc)
                  else if (sep =? 125)%N
                  then Some (JObject (set_prop k v acc), r4)
                  else None
                | [] => None
                end
              | None => None
              end
            else None
          | [] => None
          end
        | None => None
        end
      else None
    | [] => None
    end
  end

with parse_elements (fuel : nat) (s : jsstring) (acc : list jsvalue)
    {struct fuel} : option (jsvalue * jsstring) :=
  match fuel with
  | O => None
  | S f =>
    match parse_value f s with
    | Some (v, r1) =>
      match skip_ws r1 with
      | sep :: r2 =>
        if (sep =? 44)%N then parse_elements f r2 (acc ++ [v])
        else if (sep =? 93)%N then Some (JArray (acc ++ [v]), r2)
        else None
      | [] => None
      end
    | None => None
    end
  end.

(** Two successive recursive calls have at least one consumed character
    between them, so twice the length of the text is fuel enough. *)
Definition JSON_parse_ref (text : jsstring) : option jsvalue :=
  match parse_value (2 * List.length text + 2) text with
  | Some (v, rest) =>
    match skip_ws rest with
    | [] => Some v
    | _ :: _ => None
    end
  | None => None
  end.

End JsonRef.

Import JsonRef.

(* ================================================================= *)
(** * The data-model invariant, in the words of the specification *)

Definition axisName (a : Axis) : jsstring :=
  match a with
  | EI => js "EI"
  | SN => js "SN"
  | TF => js "TF"
  | JP => js "JP"
  end.

(** [result.dimensions[axis].type] *)
Definition poleOf (result : jsvalue) (a : Axis) : option jsvalue :=
  match get_prop result (js "dimensions") with
  | Some dims =>
    match get_prop dims (axisName a) with
    | Some d => get_prop d (js "type")
    | None => None
    end
  | None => None
  end.

(** [result.dimensions[axis].confidence] *)
Definition confidenceOf (result : jsvalue) (a : Axis) : option jsvalue :=
  match get_prop result (js "dimensions") with
  | Some dims =>
    match get_prop dims (axisName a) with
    | Some d => get_prop d (js "confidence")
    | None => None
    end
  | None => None
  end.

(** [result.dimensions[axis].reason] *)
Definition reasonOf (result : jsvalue) (a : Axis) : option jsvalue :=
  match get_prop result (js "dimensions") with
  | Some dims =>
    match get_prop dims (axisName a) with
    | Some d => get_prop d (js "reason")
    | None => None
    end
  | None => None
  end.

(** The characters of [mbtiType] are the poles of the four axes, in the
    order EI, SN, TF, JP. *)
Definition polesMatchType (result : jsvalue) : Prop :=
  exists c0 c1 c2 c3,
    get_prop result (js "mbtiType") = Some (JString [c0; c1; c2; c3]) /\
    poleOf result EI = Some (JString [c0]) /\
    poleOf result SN = Some (JString [c1]) /\
    poleOf result TF = Some (JString [c2]) /\
    poleOf result JP = Some (JString [c3]).

(** ** Invariants of the interleaved executions *)

(** The flag is set exactly while one analysis call is in flight. *)
Definition flagTracksCall (s : Sys) : Prop :=
  analysesInFlight s = if isAnalyzing (state s) then 1 else 0.

(** The counter is the number of replies [sendMessage] appended; the
    assistant turns are those and the welcome messages. *)
Definition counterTracksReplies (s : Sys) : Prop :=
  questionsAsked (userInfo (state s)) = repliesAppended s /\
  assistantTurns (state s) = (repliesAppended s + welcomesAppended s)%N.

(* ================================================================= *)
(** * Sample sessions *)

Module Samples.

Definition sessionWith (history : list Msg) (asked : N) : State :=
  set_userInfo (set_history (initialState true) history)
    {| mbtiType := JNull; traits := JObject [];
       questionsAsked := asked; collectedData := JObject [] |}.

(** Keywords of EI, SN and JP, none of TF. *)
Definition threeAxes : list Msg :=
  [ AIMessage (js "周末你更喜欢聚会还是独处？");
    HumanMessage (js "我喜欢和朋友聚会，不过做事很看重细节");
    AIMessage (js "你会提前做计划吗？") ].

(** Keywords of EI and SN only. *)
Definition twoAxes : list Msg :=
  [ AIMessage (js "周末你更喜欢聚会还是独处？");
    HumanMessage (js "独处，我做事很看重细节") ].

Definition plainHistory : list Msg :=
  [ AIMessage (js "你好"); HumanMessage (js "你好") ].

Definition replyWithPhrase : jsstring := js "好的，让我来分析一下。".

Definition plainReply : jsstring := js "好的，请继续。".

(** An analysis reply whose braces do not hold JSON. *)
Definition bracesNotJson : jsstring := js "{mbtiType: INTJ}".

(** An analysis reply in prose, with braces and a type line. *)
Definition proseWithTypeLine : jsstring :=
  js "初步结果 {仅供参考}" ++ [LF] ++ js "类型: INTJ".

(** A type line and no braces. *)
Definition typeLineOnly : jsstring := js "类型: INTJ".

(** The quotation mark, and a quoted literal. *)
Definition quote : jsstring := [34%N].

Definition quoted (text : string) : jsstring := quote ++ js text ++ quote.

(** A complete JSON result inside prose. *)
Definition jsonInProse : jsstring :=
  js "分析如下：{" ++ quoted "mbtiType" ++ js ":" ++ quoted "INTJ" ++ js ","
    ++ quoted "confidence" ++ js ": 0.85,"
    ++ quoted "dimensions" ++ js ":{"
    ++ quoted "EI" ++ js ":{" ++ quoted "type" ++ js ":" ++ quoted "I" ++ js "},"
    ++ quoted "SN" ++ js ":{" ++ quoted "type" ++ js ":" ++ quoted "N" ++ js "},"
    ++ quoted "TF" ++ js ":{" ++ quoted "type" ++ js ":" ++ quoted "T" ++ js "},"
    ++ quoted "JP" ++ js ":{" ++ quoted "type" ++ js ":" ++ quoted "J" ++ js "}},"
    ++ quoted "description" ++ js ":" ++ quoted "x" ++ js "} 以上。".

(** Valid JSON that lacks [dimensions] and [description]. *)
Definition jsonTypeOnly : jsstring :=
  js "{" ++ quoted "mbtiType" ++ js ":" ++ quoted "ENTP" ++ js "}".

(** Neither braces nor a type line. *)
Definition noResult : jsstring := js "抱歉，信息不足，无法判断。".

(** Four exchanges, the last reply carrying a trigger phrase, so that an
    analysis call goes out; then a reset while it is in flight; four
    exchanges again and a second analysis call; the first call settles
    and releases the flag; a fifth exchange starts a third call while the
    second is still in flight. *)
Definition overlapTrace : list Event :=
  [ CallSendMessage (js "一"); Settle 0 (GatewayReply plainReply);
    CallSendMessage (js "二"); Settle 0 (GatewayReply plainReply);
    CallSendMessage (js "三"); Settle 0 (GatewayReply plainReply);
    CallSendMessage (js "四"); Settle 0 (GatewayReply replyWithPhrase);
    CallResetConversation;
    CallSendMessage (js "一"); Settle 1 (GatewayReply plainReply);
    CallSendMessage (js "二"); Settle 1 (GatewayReply plainReply);
    CallSendMessage (js "三"); Settle 1 (GatewayReply plainReply);
    CallSendMessage (js "四"); Settle 1 (GatewayReply replyWithPhrase);
    Settle 0 (GatewayReply noResult);
    CallSendMessage (js "五"); Settle 1 (GatewayReply replyWithPhrase) ].

(** A session that runs to its result, with a second message sent while
    the analysis call is in flight, and a reset after it has settled. *)
Definition quietTrace : list Event :=
  [ CallGetWelcomeMessage; Settle 0 (GatewayReply (js "你好，我们开始吧"));
    CallSendMessage (js "一"); Settle 0 (GatewayReply plainReply);
    CallSendMessage (js "二"); Settle 0 (GatewayReply plainReply);
    CallSendMessage (js "三"); Settle 0 (GatewayReply plainReply);
    CallSendMessage (js "四"); Settle 0 (GatewayReply replyWithPhrase);
    CallSendMessage (js "五"); Settle 1 (GatewayReply replyWithPhrase);
    Settle 0 (GatewayReply typeLineOnly);
    CallResetConversation;
    CallGetWelcomeMessage; Settle 0 (GatewayReply (js "你好，我们开始吧"));
    CallSendMessage (js "一"); Settle 0 (GatewayReply plainReply) ].

(** The welcome message alone. *)
Definition welcomeTrace : list Event :=
  [ CallGetWelcomeMessage; Settle 0 (GatewayReply (js "你好，我们开始吧")) ].

End Samples.

(* ================================================================= *)
(** * Auxiliary notions for the session properties *)

(** The state on which [sendMessage] evaluates the trigger: both turns
    appended and the counter advanced. *)
Definition afterReply (st : State) (userMessage response : jsstring) : State :=
  incrQuestionsAsked
    (push (push st (HumanMessage userMessage)) (AIMessage response)).

(** The trace holds no call of [resetConversation]. *)
Definition noReset (trace : list Event) : bool :=
  forallb (fun e => match e with
                    | CallResetConversation => false
                    | _ => true
                    end) trace.

(** A service state with a welcome and one exchange, and a chat call in
    flight. *)
Definition midSession : Sys := {|
  state := Samples.sessionWith Samples.plainHistory 1;
  pending := [AwaitReply];
  session := 0;
  repliesAppended := 1;
  welcomesAppended := 0
|}.

(** The same with an analysis call in flight. *)
Definition midAnalysis : Sys := {|
  state := set_isAnalyzing (Samples.sessionWith Samples.plainHistory 4) true;
  pending := [AwaitAnalysis Samples.replyWithPhrase 0];
  session := 0;
  repliesAppended := 4;
  welcomesAppended := 0
|}.

(* ================================================================= *)
(** * Prompts and requests *)

Definition DQUOTE : N := 34.

(** A literal between quotation marks. *)
Definition dq (text : string) : jsstring := DQUOTE :: js text ++ [DQUOTE].

(** A counter inside a template literal: its decimal digits.  (The
    notation of a double changes only from 10^21 on.) *)
Fixpoint digitsOf (d : Decimal.uint) : jsstring :=
  match d with
  | Decimal.Nil => []
  | Decimal.D0 r => 48%N :: digitsOf r
  | Decimal.D1 r => 49%N :: digitsOf r
  | Decimal.D2 r => 50%N :: digitsOf r
  | Decimal.D3 r => 51%N :: digitsOf r
  | Decimal.D4 r => 52%N :: digitsOf r
  | Decimal.D5 r => 53%N :: digitsOf r
  | Decimal.D6 r => 54%N :: digitsOf r
  | Decimal.D7 r => 55%N :: digitsOf r
  | Decimal.D8 r => 56%N :: digitsOf r
  | Decimal.D9 r => 57%N :: digitsOf r
  end.

Definition numberToString (n : N) : jsstring := digitsOf (N.to_uint n).

Definition hintEnough : jsstring :=
  js "你已经收集了足够的基础信息，可以考虑进行深入分析了。".

(** The computed [progressHint]. *)
Definition progressHint (cfg : Config) (st : State) : jsstring :=
  let asked := questionsAsked (userInfo st) in
  if (minQuestionsBeforeAnalysis cfg <=? asked)%N
  then hintEnough
  else js "你已经问了" ++ numberToString asked
         ++ js "个问题，还需要更多信息来进行准确分析。".

(** The template of [getSystemPrompt] up to the progress hint. *)
Definition systemPromptHead : jsstring :=
  join [LF]
    [ js "你是一个专业的MBTI性格分析师。你的任务是通过与用户对话来分析他们的MBTI性格类型。";
      [];
      js "MBTI包含四个维度：";
      js "1. 外向(E) vs 内向(I) - 能量来源和社交偏好";
      js "2. 感觉(S) vs 直觉(N) - 信息收集和处理方式  ";
      js "3. 思考(T) vs 情感(F) - 决策和判断方式";
      js "4. 判断(J) vs 知觉(P) - 生活方式和工作风格";
      [];
      js "请遵循以下规则：";
      js "1. 用友好、专业的语调与用户交流";
      js "2. 每次只问1-2个相关问题，不要一次问太多";
      js "3. 根据用户的回答逐步收集各个维度的信息";
      js "4. 问题要具体且贴近生活场景，避免抽象概念";
      js "5. 避免直接问" ++ dq "你是内向还是外向" ++ js "这样的问题，要通过具体情境来判断";
      js "6. 当你认为收集到足够的信息时（通常5-8个问题后），在回复中包含" ++ dq "分析" ++ js "、" ++ dq "总结" ++ js "或" ++ dq "结论" ++ js "等关键词来触发详细分析";
      [];
      js "当前进度：" ].

(** The template of [getSystemPrompt] after the progress hint. *)
Definition systemPromptTail : jsstring :=
  join [LF]
    [ [];
      [];
      js "重要提示：如果你认为已经收集到足够信息进行MBTI分析，请在回复中明确提到要进行" ++ dq "分析" ++ js "或给出" ++ dq "结论" ++ js "。" ].

(** The template of [analysisPrompt] up to the transcript. *)
Definition analysisPromptHead : jsstring :=
  join [LF]
    [ js "作为专业的MBTI性格分析师，请基于以下对话历史，对用户进行深入的MBTI性格类型分析。";
      [];
      js "对话历史：";
      [] ].

(** The template of [analysisPrompt] after the transcript. *)
Definition analysisPromptTail : jsstring :=
  join [LF]
    [ [];
      [];
      js "请进行详细分析，并严格按照以下JSON格式输出结果。每个字段都必须填写完整：";
      [];
      js "{";
      js "  " ++ dq "mbtiType" ++ js ": " ++ dq "ENFP" ++ js ",";
      js "  " ++ dq "confidence" ++ js ": 0.85,";
      js "  " ++ dq "dimensions" ++ js ": {";
      js "    " ++ dq "EI" ++ js ": {";
      js "      " ++ dq "type" ++ js ": " ++ dq "E" ++ js ",";
      js "      " ++ dq "confidence" ++ js ": 0.8,";
      js "      " ++ dq "reason" ++ js ": " ++ dq "从用户的回答中可以看出，用户更倾向于从外部世界获取能量，喜欢与人交流互动，在社交场合表现活跃。例如用户提到...";
      js "    },";
      js "    " ++ dq "SN" ++ js ": {";
      js "      " ++ dq "type" ++ js ": " ++ dq "N" ++ js ", ";
      js "      " ++ dq "confidence" ++ js ": 0.9,";
      js "      " ++ dq "reason" ++ js ": " ++ dq "用户在描述问题时更关注可能性和未来潜力，而不是具体细节，显示出直觉型的特征。比如用户说...";
      js "    },";
      js "    " ++ dq "TF" ++ js ": {";
      js "      " ++ dq "type" ++ js ": " ++ dq "F" ++ js ",";
      js "      " ++ dq "confidence" ++ js ": 0.7,";
      js "      " ++ dq "reason" ++ js ": " ++ dq "在做决定时，用户更多考虑人际关系和价值观，而非纯粹的逻辑分析，表现出情感型决策风格。体现在...";
      js "    },";
      js "    " ++ dq "JP" ++ js ": {";
      js "      " ++ dq "type" ++ js ": " ++ dq "P" ++ js ",";
      js "      " ++ dq "confidence" ++ js ": 0.8,";
      js "      " ++ dq "reason" ++ js ": " ++ dq "用户更喜欢保持灵活性和开放性，不喜欢过于严格的计划和结构，偏好知觉型的生活方式。这在...中有所体现";
      js "    }";
      js "  },";
      js "  " ++ dq "description" ++ js ": " ++ dq "ENFP类型（倡导者）是充满热情和创造力的人。他们外向、直觉、情感和知觉的特质使他们成为天生的激励者和创新者。他们善于发现人和事物的潜力，能够激发他人的积极性。ENFP类型的人通常很有魅力，能够与各种类型的人建立良好关系。他们重视个人价值观，追求意义和可能性。" ++ js ",";
      js "  " ++ dq "strengths" ++ js ": [";
      js "    " ++ dq "富有创造力和想象力，能够提出新颖的想法和解决方案" ++ js ",";
      js "    " ++ dq "出色的人际交往能力，善于激励和影响他人" ++ js ",";
      js "    " ++ dq "适应性强，能够在变化的环境中保持灵活性" ++ js ",";
      js "    " ++ dq "对他人的需求和情感非常敏感，具有强烈的同理心" ++ js ",";
      js "    " ++ dq "热情洋溢，能够为团队带来积极的能量";
      js "  ],";
      js "  " ++ dq "developmentAreas" ++ js ": [";
      js "    " ++ dq "提高专注力，避免同时进行太多项目而导致效率降低" ++ js ",";
      js "    " ++ dq "加强细节管理能力，确保重要任务的完成质量" ++ js ",";
      js "    " ++ dq "学会更好地处理批评，不要过于情绪化地回应负面反馈" ++ js ",";
      js "    " ++ dq "培养长期规划能力，平衡即兴决策与系统性思考";
      js "  ],";
      js "  " ++ dq "careerSuggestions" ++ js ": [";
      js "    " ++ dq "创意行业：广告策划、平面设计师、内容创作者、艺术指导" ++ js ",";
      js "    " ++ dq "教育培训：培训师、教育顾问、课程开发专员、学生辅导员" ++ js ",";
      js "    " ++ dq "人力资源：HR专员、组织发展顾问、员工关系专家、招聘专员" ++ js ",";
      js "    " ++ dq "媒体传播：记者、公关专员、社交媒体经理、品牌策划" ++ js ",";
      js "    " ++ dq "咨询服务：管理咨询师、心理咨询师、职业规划师、创业顾问";
      js "  ]";
      js "}";
      [];
      js "重要提示：";
      js "1. 必须基于对话内容进行分析，不要编造信息";
      js "2. 每个维度的reason字段必须引用具体的对话内容";
      js "3. 置信度要根据对话信息的充分程度来判断";
      js "4. 描述要针对分析出的具体类型，不要使用模板化内容";
      js "5. 输出必须是有效的JSON格式，不要添加任何其他文字" ].

(** The system message of the analysis request. *)
Definition analysisSystemPrompt : jsstring :=
  join [LF]
    [ js "你是资深的MBTI性格分析专家，拥有丰富的心理学背景。请仔细分析用户的对话内容，从以下四个维度进行评估：";
      js "1. 外向(E) vs 内向(I)：分析用户的能量来源和社交偏好";
      js "2. 感觉(S) vs 直觉(N)：分析用户的信息处理方式";
      js "3. 思考(T) vs 情感(F)：分析用户的决策风格";
      js "4. 判断(J) vs 知觉(P)：分析用户的生活方式偏好";
      [];
      js "请确保分析结果详细、准确，并且输出格式严格符合要求。" ].

(** [getSystemPrompt] *)
Definition getSystemPrompt (cfg : Config) (st : State) : jsstring :=
  systemPromptHead ++ progressHint cfg st ++ systemPromptTail.

(** A message of a request to the gateway. *)
Inductive ChatMessage : Type :=
| SystemMessage (text : jsstring)
| Turn (m : Msg).

(** The [messages] array [sendMessage] sends, built after the user's
    message is pushed. *)
Definition sendMessage_request (cfg : Config) (st : State)
    (userMessage : jsstring) : list ChatMessage :=
  let st1 := push st (HumanMessage userMessage) in
  SystemMessage (getSystemPrompt cfg st1) :: map Turn (conversationHistory st1).

(** The request of [getWelcomeMessage]. *)
Definition getWelcomeMessage_request (cfg : Config) (st : State)
    : list ChatMessage :=
  [ SystemMessage (getSystemPrompt cfg st ++ [LF; LF]
                     ++ js "请开始介绍自己并提出第一个问题。") ].

(** One line of the transcript inside the analysis prompt. *)
Definition transcriptLine (m : Msg) : jsstring :=
  (match m with
   | HumanMessage _ => js "用户"
   | AIMessage _ => js "AI"
   end) ++ js ": " ++ content m.

(** The transcript: the lines of the turns, joined by line feeds. *)
Definition transcript (history : list Msg) : jsstring :=
  join [LF] (map transcriptLine history).

Definition analysisPrompt (st : State) : jsstring :=
  analysisPromptHead ++ transcript (conversationHistory st)
    ++ analysisPromptTail.

(** The [analysisMessages] array of [performMBTIAnalysis]. *)
Definition performMBTIAnalysis_request (st : State) : list ChatMessage :=
  [ SystemMessage analysisSystemPrompt;
    Turn (HumanMessage (analysisPrompt st)) ].

(* ================================================================= *)
(** * Configuration check and model start *)

(** [a || b] *)
Definition jsOr (a b : jsvalue) : jsvalue := if truthy a then a else b.

(** [AI_CONFIG.apiKey]: the environment variable, or else the literal of
    config.js, which is passed in rather than written out here. *)
Definition apiKey (env literal : jsvalue) : jsvalue := jsOr env literal.

(** [validateConfig] *)
Definition validateConfig (key : jsvalue) : bool :=
  if negb (truthy key) then false else true.

(** The options [initializeDeepSeekModel] builds the model with. *)
Definition chatModelOptions (key : jsvalue) : jsvalue :=
  JObject
    [ (js "openAIApiKey", key);
      (js "configuration",
         JObject [ (js "baseURL", JString (js "https://api.deepseek.com")) ]);
      (js "modelName", JString (js "deepseek-chat"));
      (js "temperature", JNumber num_0_7);
      (js "maxTokens", JNumber (double_of_decimal false 2000 0)) ].

(** The two refs behind [isModelReady]: [chatModel.value] ([None] is
    [null]; a model is represented by its options) and
    [isInitialized.value]. *)
Record ModelState : Type := {
  chatModel : option jsvalue;
  isInitialized : bool
}.

Definition moduleLoad : ModelState :=
  {| chatModel := None; isInitialized := false |}.

(** The computed [isModelReady]. *)
Definition isModelReadyOf (ms : ModelState) : bool :=
  isInitialized ms && match chatModel ms with
                      | Some _ => true
                      | None => false
                      end.

(** [initializeDeepSeekModel]; [constructed] tells whether
    [new ChatOpenAI(...)] returns rather than throws. *)
Definition initializeDeepSeekModel (key : jsvalue) (constructed : bool)
    (ms : ModelState) : ModelState * bool :=
  if negb (validateConfig key) then (ms, false)
  else if constructed
  then ({| chatModel := Some (chatModelOptions key); isInitialized := true |},
        true)
  else ({| chatModel := chatModel ms; isInitialized := false |}, false).

(* ================================================================= *)
(** * The chat view *)

(** The script of the page component that drives the service.  Its calls
    are modelled one after the other: each runs to its end before the
    next begins.  The [id] and [timestamp] of a message, which come from
    the clock and the random source and which the script never reads, are
    left out. *)

Module View.

(** WhiteSpace and LineTerminator of ECMAScript, which [trim] removes. *)
Definition isTrimmed (c : N) : bool :=
  existsb (N.eqb c)
    [ 9; 10; 11; 12; 13; 32; 160; 5760;
      8192; 8193; 8194; 8195; 8196; 8197; 8198; 8199; 8200; 8201; 8202;
      8232; 8233; 8239; 8287; 12288; 65279 ]%N.

Fixpoint trimStart (s : jsstring) : jsstring :=
  match s with
  | c :: r => if isTrimmed c then trimStart r else s
  | [] => []
  end.

(** [String.prototype.trim] *)
Definition trim (s : jsstring) : jsstring :=
  rev (trimStart (rev (trimStart s))).

Inductive MessageType : Type := user | ai | system.

Inductive Message : Type :=
| Text (content : jsstring) (type : MessageType)
| Result (data : jsvalue).

Record View : Type := {
  messages : list Message;
  inputMessage : jsstring;
  isLoading : bool;
  isAnalysisComplete : bool
}.

Definition mounted : View :=
  {| messages := []; inputMessage := []; isLoading := false;
     isAnalysisComplete := false |}.

(** The computed [canSendMessage]. *)
Definition canSendMessage (v : View) : bool :=
  negb (isLoading v) && (0 <? List.length (trim (inputMessage v))).

Definition isType (t : MessageType) (m : Message) : bool :=
  match m, t with
  | Text _ user, user | Text _ ai, ai | Text _ system, system => true
  | _, _ => false
  end.

(** The computed [messageStats]: [userMessages] and [aiMessages]. *)
Definition messageStats (v : View) : nat * nat :=
  (List.length (filter (isType user) (messages v)),
   List.length (filter (isType ai) (messages v))).

Definition push_message (v : View) (m : Message) : View :=
  {| messages := messages v ++ [m]; inputMessage := inputMessage v;
     isLoading := isLoading v; isAnalysisComplete := isAnalysisComplete v |}.

(** [addMessage] *)
Definition addMessage (v : View) (content : jsstring) (type : MessageType)
    : View :=
  push_message v (Text content type).

(** [addMBTIResult] *)
Definition addMBTIResult (v : View) (analysisData : jsvalue) : View :=
  push_message v (Result analysisData).

Definition set_inputMessage (v : View) (text : jsstring) : View :=
  {| messages := messages v; inputMessage := text;
     isLoading := isLoading v; isAnalysisComplete := isAnalysisComplete v |}.

Definition set_isLoading (v : View) (b : bool) : View :=
  {| messages := messages v; inputMessage := inputMessage v;
     isLoading := b; isAnalysisComplete := isAnalysisComplete v |}.

Definition set_isAnalysisComplete (v : View) (b : bool) : View :=
  {| messages := messages v; inputMessage := inputMessage v;
     isLoading := isLoading v; isAnalysisComplete := b |}.

(** [response.analysis && !response.analysis.error] *)
Definition showsResult (analysis : jsvalue) : bool :=
  if truthy analysis then
    match get_prop analysis (js "error") with
    | Some e => negb (truthy e)
    | None => false
    end
  else false.

Definition doneNotice : jsstring := js "🎉 分析完成！希望这个结果对你有帮助。".

Section Script.

Variable toLowerCase : jsstring -> jsstring.
Variable JSON_parse : jsstring -> option jsvalue.
Variable cfg : Config.

(** The view's [sendMessage]; [r1] and [r2] settle the gateway calls the
    service makes. *)
Definition sendMessage (v : View) (st : State) (r1 r2 : GatewayResult)
    : View * State :=
  if negb (canSendMessage v) then (v, st)
  else
    let userMessage := trim (inputMessage v) in
    let v1 := addMessage v userMessage user in
    let v2 := set_inputMessage v1 [] in
    let v3 := set_isLoading v2 true in
    let (st', outcome) :=
      sendMessage toLowerCase JSON_parse cfg st userMessage r1 r2 in
    let v4 :=
      match outcome with
      | Returns response =>
        let w1 := addMessage v3 (message response) ai in
        if showsResult (analysis response) then
          let w2 := addMBTIResult w1 (analysis response) in
          let w3 := addMessage w2 doneNotice system in
          set_isAnalysisComplete w3 true
        else w1
      | Throws msg =>
        addMessage v3 (js "❌ 发送失败: " ++ msg) system
      end in
    (set_isLoading v4 false, st').

(** [startNewConversation]; [getWelcomeMessage] never throws, so the
    [catch] of the script is not entered. *)
Definition startNewConversation (v : View) (st : State) (r : GatewayResult)
    : View * State :=
  let v1 := {| messages := []; inputMessage := inputMessage v;
               isLoading := isLoading v;
               isAnalysisComplete := isAnalysisComplete v |} in
  let st1 := resetConversation st in
  let v2 := set_isAnalysisComplete v1 false in
  let v3 := set_isLoading v2 true in
  let (st', welcomeMessage) := getWelcomeMessage st1 r in
  let v4 := addMessage v3 welcomeMessage ai in
  (set_isLoading v4 false, st').

(** What the user does, one thing after the other: type into the input
    field, press send, press restart.  The template offers fewer
    sequences than these (it hides the input once the analysis is
    complete and disables it while loading). *)
Inductive Action : Type :=
| TypeInput (text : jsstring)
| PressSend (r1 r2 : GatewayResult)
| PressRestart (r : GatewayResult).

Definition act (vs : View * State) (a : Action) : View * State :=
  match a with
  | TypeInput text => (set_inputMessage (fst vs) text, snd vs)
  | PressSend r1 r2 => sendMessage (fst vs) (snd vs) r1 r2
  | PressRestart r => startNewConversation (fst vs) (snd vs) r
  end.

Definition use (vs : View * State) (actions : list Action) : View * State :=
  fold_left act actions vs.

End Script.

Definition isResult (m : Message) : bool :=
  match m with
  | Result _ => true
  | Text _ _ => false
  end.

(** The turns the view shows: its [user] and [ai] messages. *)
Fixpoint shownTurns (l : list Message) : list Msg :=
  match l with
  | [] => []
  | Text c user :: r => HumanMessage c :: shownTurns r
  | Text c ai :: r => AIMessage c :: shownTurns r
  | _ :: r => shownTurns r
  end.

End View.

(** What sequential use of the view keeps true once a conversation has
    been started on a ready model. *)
Definition inStep (vs : View.View * State) : Prop :=
  isModelReady (snd vs) = true /\
  View.isLoading (fst vs) = false /\
  View.isAnalysisComplete (fst vs)
    = existsb View.isResult (View.messages (fst vs)) /\
  (View.shownTurns (View.messages (fst vs)) = conversationHistory (snd vs) \/
   View.shownTurns (View.messages (fst vs))
     = AIMessage welcomeFallback :: conversationHistory (snd vs)).

(** A view with a padded answer typed in, after a welcome. *)
Definition typedView : View.View := {|
  View.messages := [View.Text (js "你好") View.ai];
  View.inputMessage := js "  我更喜欢独处 ";
  View.isLoading := false;
  View.isAnalysisComplete := false
|}.

(** A fresh session on a ready model with the welcome in its history. *)
Definition welcomed : State :=
  Samples.sessionWith [AIMessage (js "你好")] 0.

(* ================================================================= *)
(** * Properties of the string operations *)

Lemma eqb_refl (s : jsstring) : JsString.eqb s s = true.
Proof.
  induction s as [|c s IH]; simpl; [reflexivity|].
  now rewrite N.eqb_refl.
Qed.

Lemma eqb_eq (s t : jsstring) : JsString.eqb s t = true <-> s = t.
Proof.
  split; [|intros ->; apply eqb_refl].
  revert t; induction s as [|c s IH]; intros [|d t]; simpl; try discriminate; auto.
  intros H; apply andb_true_iff in H as [Hc Hs].
  apply N.eqb_eq in Hc; subst; f_equal; auto.
Qed.

Lemma startsWith_spec (s p : jsstring) :
  startsWith s p = true <-> exists post, s = p ++ post.
Proof.
  revert s; induction p as [|c p IH]; intros s; simpl.
  - split; [intros _; now exists s | reflexivity].
  - destruct s as [|d s].
    + split; [discriminate | intros [post H]; discriminate].
    + rewrite andb_true_iff, N.eqb_eq, IH. split.
      * intros [-> [post ->]]. now exists post.
      * intros [post H]. injection H as -> ->. split; [reflexivity | now exists post].
Qed.

Lemma includes_spec (s kw : jsstring) :
  includes s kw = true <-> substring_of kw s.
Proof.
  unfold substring_of. induction s as [|d s IH].
  - simpl. rewrite orb_false_r, startsWith_spec. split.
    + intros [post H]. now exists [], post.
    + intros [pre [post H]]. destruct pre; simpl in H.
      * now exists post.
      * discriminate.
  - cbn [includes]. rewrite orb_true_iff, startsWith_spec, IH. split.
    + intros [[post H] | [pre [post H]]].
      * now exists [], post.
      * exists (d :: pre), post. simpl. now rewrite H.
    + intros [pre [post H]]. destruct pre as [|x pre]; simpl in H.
      * left. now exists post.
      * right. injection H as _ H. now exists pre, post.
Qed.

Lemma some_includes_spec (text : jsstring) (keywords : list jsstring) :
  existsb (fun keyword => includes text keyword) keywords = true <->
  exists keyword, In keyword keywords /\ substring_of keyword text.
Proof.
  rewrite existsb_exists. split; intros [k [Hin H]]; exists k; split; auto;
    now apply includes_spec.
Qed.

(** Every element of the array occurs in the joined text. *)
Lemma join_includes (sep : jsstring) (l : list jsstring) (x : jsstring) :
  In x l -> substring_of x (join sep l).
Proof.
  induction l as [|y l IH]; [contradiction|].
  intros [-> | Hin].
  - destruct l as [|z l]; simpl.
    + exists [], []. now rewrite app_nil_r.
    + now exists [], (sep ++ join sep (z :: l)).
  - destruct (IH Hin) as [pre [post H]].
    destruct l as [|z l]; [contradiction|].
    exists (y ++ sep ++ pre), post.
    change (join sep (y :: z :: l)) with (y ++ sep ++ join sep (z :: l)).
    rewrite H. now rewrite <- !app_assoc.
Qed.

(* ================================================================= *)
(** * The analysis trigger *)

Lemma axisCoveredb_spec (text : jsstring) (a : Axis) :
  axisCoveredb text a = true <-> axisCovered a text.
Proof. apply some_includes_spec. Qed.

Lemma Axis_eqb_eq (a b : Axis) : Axis_eqb a b = true <-> a = b.
Proof. destruct a, b; simpl; split; congruence. Qed.

Lemma NoDup_axes : NoDup axes.
Proof.
  unfold axes. repeat constructor; simpl; intuition discriminate.
Qed.

Lemma In_axes (a : Axis) : In a axes.
Proof. destruct a; simpl; auto. Qed.

Lemma count_loop (text : jsstring) (table : list (Axis * list jsstring)) (n : N) :
  fold_left
    (fun covered entry =>
       if existsb (fun keyword => includes text keyword) (snd entry)
       then (covered + 1)%N else covered) table n
  = (n + N.of_nat (List.length
        (filter (fun entry => existsb (fun keyword => includes text keyword) (snd entry))
                table)))%N.
Proof.
  revert n; induction table as [|e table IH]; intros n; simpl.
  - lia.
  - rewrite IH. destruct (existsb _ (snd e)); simpl List.length; lia.
Qed.

(** The counter of the loop is the number of covered axes. *)
Lemma coveredDimensions_count (text : jsstring) :
  coveredDimensions text
  = N.of_nat (List.length (filter (axisCoveredb text) axes)).
Proof.
  unfold coveredDimensions. rewrite count_loop, N.add_0_l. f_equal.
  unfold dimensionKeywords, axes, axisCoveredb. cbn [filter snd].
  change (keywordsOf EI) with (snd (nth 0 dimensionKeywords (EI, []))).
  change (keywordsOf SN) with (snd (nth 1 dimensionKeywords (EI, []))).
  change (keywordsOf TF) with (snd (nth 2 dimensionKeywords (EI, []))).
  change (keywordsOf JP) with (snd (nth 3 dimensionKeywords (EI, []))).
  unfold dimensionKeywords; cbn [nth snd].
  repeat match goal with
         | |- context [if ?b then _ else _] => destruct b
         end; reflexivity.
Qed.

(** A duplicate-free list of exactly the covered axes is as long as the
    counter says. *)
Lemma covered_list_length (text : jsstring) (covered : list Axis) :
  NoDup covered ->
  (forall a, In a covered <-> axisCovered a text) ->
  List.length covered = List.length (filter (axisCoveredb text) axes).
Proof.
  intros Hnd Hin.
  apply Permutation_length, NoDup_Permutation; auto.
  - apply NoDup_filter, NoDup_axes.
  - intros a. rewrite Hin, filter_In, axisCoveredb_spec.
    split; [intros H; split; [apply In_axes | exact H] | tauto].
Qed.

Lemma threeAxesCovered_spec (text : jsstring) :
  threeAxesCovered text <-> (3 <=? coveredDimensions text)%N = true.
Proof.
  rewrite coveredDimensions_count, N.leb_le. unfold threeAxesCovered. split.
  - intros [l [Hnd [Hlen Hall]]].
    assert (List.length l <= List.length (filter (axisCoveredb text) axes)).
    { apply NoDup_incl_length; auto. intros a Ha.
      apply filter_In. split; [apply In_axes|].
      apply axisCoveredb_spec; auto. }
    lia.
  - intros H. exists (filter (axisCoveredb text) axes). repeat split.
    + apply NoDup_filter, NoDup_axes.
    + lia.
    + intros a Ha. apply filter_In in Ha as [_ Ha]. now apply axisCoveredb_spec.
Qed.


(** C1.  The trigger answers true exactly when the question counter has
    reached the configured threshold and either a configured trigger
    phrase occurs in the reply (code unit for code unit, so case matters)
    or at least three of the four axes are covered; below the threshold
    it answers false whatever the reply; the shipped threshold is 4. *)
Theorem shouldAnalyze_iff :
  forall (toLowerCase : jsstring -> jsstring) (cfg : Config) (st : State)
         (aiResponse : jsstring),
    (shouldAnalyze toLowerCase cfg st aiResponse = true <->
       (minQuestionsBeforeAnalysis cfg <= questionsAsked (userInfo st))%N /\
       (hasTriggerPhrase cfg aiResponse \/
        threeAxesCovered (conversationText toLowerCase (conversationHistory st))))
    /\ ((questionsAsked (userInfo st) < minQuestionsBeforeAnalysis cfg)%N ->
        shouldAnalyze toLowerCase cfg st aiResponse = false)
    /\ minQuestionsBeforeAnalysis AI_CONFIG = 4%N.
Proof.
  intros toLowerCase cfg st aiResponse.
  unfold shouldAnalyze, hasCollectedEnoughDimensionInfo, hasTriggerPhrase.
  rewrite andb_true_iff, orb_true_iff, N.leb_le, some_includes_spec,
    <- threeAxesCovered_spec.
  split; [reflexivity | split; [|reflexivity]].
  intros Hq. apply andb_false_iff. left. now apply N.leb_gt.
Qed.

(** C2.  The heuristic searches the lower-cased join of the texts of all
    turns, of either role; its counter is the number of axes one of whose
    keywords occurs in that text; it answers true exactly when that
    number is at least three, so true on exactly three covered axes and
    false on exactly two. *)
Theorem hasCollectedEnoughDimensionInfo_spec :
  forall (toLowerCase : jsstring -> jsstring) (st : State)
         (covered : list Axis),
    let text := conversationText toLowerCase (conversationHistory st) in
    NoDup covered ->
    (forall a, In a covered <-> axisCovered a text) ->
    text = toLowerCase (join (js " ") (map content (conversationHistory st)))
    /\ (forall m, In m (conversationHistory st) ->
          substring_of (content m)
            (join (js " ") (map content (conversationHistory st))))
    /\ coveredDimensions text = N.of_nat (List.length covered)
    /\ (hasCollectedEnoughDimensionInfo toLowerCase st = true <->
        3 <= List.length covered)
    /\ (List.length covered = 3 ->
        hasCollectedEnoughDimensionInfo toLowerCase st = true)
    /\ (List.length covered = 2 ->
        hasCollectedEnoughDimensionInfo toLowerCase st = false).
Proof.
  intros toLowerCase st covered text Hnd Hin.
  assert (Hcount : coveredDimensions text = N.of_nat (List.length covered)).
  { rewrite coveredDimensions_count. f_equal. symmetry.
    now apply covered_list_length. }
  assert (Hiff : hasCollectedEnoughDimensionInfo toLowerCase st = true <->
                 3 <= List.length covered).
  { unfold hasCollectedEnoughDimensionInfo. fold text.
    rewrite Hcount, N.leb_le. lia. }
  repeat split.
  - intros m Hm. apply join_includes, in_map, Hm.
  - exact Hcount.
  - apply Hiff.
  - apply Hiff.
  - intros H. apply Hiff. lia.
  - intros H. apply not_true_is_false. intros Ht. apply Hiff in Ht. lia.
Qed.

(* ================================================================= *)
(** * The result parser *)

(** ** The two patterns *)

Lemma through_last_absent (c : N) (s : jsstring) :
  through_last c s = None <-> ~ In c s.
Proof.
  induction s as [|x s IH]; simpl.
  - tauto.
  - destruct (through_last c s) as [q|].
    + split; [discriminate|]. intros H. exfalso.
      assert (Some q = None) as E; [|discriminate E].
      apply IH. tauto.
    + destruct (N.eqb_spec x c) as [->|Hne].
      * split; [discriminate | tauto].
      * split; [|reflexivity]. intros _ [H|H]; [congruence|].
        now apply (proj1 IH).
Qed.

Lemma through_last_found (c : N) (body post : jsstring) :
  ~ In c post ->
  through_last c (body ++ c :: post) = Some (body ++ [c]).
Proof.
  intros Hn. induction body as [|x body IH]; simpl.
  - apply through_last_absent in Hn. now rewrite Hn, N.eqb_refl.
  - now rewrite IH.
Qed.

Lemma through_last_spec (c : N) (s p : jsstring) :
  through_last c s = Some p <->
  exists body post, s = body ++ c :: post /\ p = body ++ [c] /\ ~ In c post.
Proof.
  split.
  - revert p; induction s as [|x s IH]; intros p; simpl; [discriminate|].
    destruct (through_last c s) as [q|] eqn:Hq.
    + intros H; injection H as <-.
      destruct (IH q eq_refl) as [body [post [Hs [Hp Hn]]]].
      exists (x :: body), post. subst; simpl; auto.
    + destruct (N.eqb_spec x c) as [->|Hne]; [|discriminate].
      intros H; injection H as <-. exists [], s.
      apply through_last_absent in Hq. auto.
  - intros [body [post [-> [-> Hn]]]]. now apply through_last_found.
Qed.

(** The brace pattern matches from the leftmost opening brace that has a
    closing brace after it through the last closing brace of the text. *)
Lemma match_braces_spec (content m : jsstring) :
  match_braces content = Some m <->
  exists pre body post,
    content = pre ++ LBRACE :: body ++ RBRACE :: post /\
    m = LBRACE :: body ++ [RBRACE] /\
    ~ In LBRACE pre /\ ~ In RBRACE post.
Proof.
  revert m; induction content as [|c r IH]; intros m; simpl.
  - split; [discriminate|]. intros [pre [body [post [H _]]]].
    destruct pre; discriminate.
  - destruct (N.eqb_spec c LBRACE) as [->|Hne].
    + destruct (through_last RBRACE r) as [q|] eqn:Hq.
      * apply through_last_spec in Hq as [body [post [Hr [Hq Hn]]]].
        split.
        -- intros H; injection H as <-. exists [], body, post. subst; auto.
        -- intros [pre [body' [post' [Hc [Hm [Hp Hn']]]]]].
           destruct pre as [|y pre]; simpl in Hc.
           ++ injection Hc as Hc.
              assert (H' : through_last RBRACE r = Some (body' ++ [RBRACE])).
              { apply through_last_spec. now exists body', post'. }
              assert (H'' : through_last RBRACE r = Some q).
              { apply through_last_spec. now exists body, post. }
              rewrite H'' in H'. injection H' as ->. now subst m.
           ++ injection Hc as <- _. exfalso. apply Hp. now left.
      * split; [discriminate|].
        intros [pre [body' [post' [Hc [Hm [Hp Hn']]]]]].
        destruct pre as [|y pre]; simpl in Hc.
        -- injection Hc as Hc.
           assert (H' : through_last RBRACE r = Some (body' ++ [RBRACE])).
           { apply through_last_spec. now exists body', post'. }
           congruence.
        -- injection Hc as <- _. exfalso. apply Hp. now left.
    + rewrite IH. split.
      * intros [pre [body [post [Hr [Hm [Hp Hn]]]]]].
        exists (c :: pre), body, post. subst r. repeat split; auto.
        intros [H|H]; [congruence | auto].
      * intros [pre [body [post [Hc [Hm [Hp Hn]]]]]].
        destruct pre as [|y pre]; simpl in Hc.
        -- injection Hc as Hc _. congruence.
        -- injection Hc as <- Hr. exists pre, body, post. repeat split; auto.
           intros H. apply Hp. now right.
Qed.

(** The capitals pattern yields four consecutive capitals of the line. *)
Lemma match_upper4_sound (line m : jsstring) :
  match_upper4 line = Some m ->
  List.length m = 4 /\ forallb isUpper m = true /\ substring_of m line.
Proof.
  induction line as [|a r IH]; simpl; [discriminate|].
  destruct r as [|b [|c [|d r']]]; try discriminate.
  destruct (isUpper a && isUpper b && isUpper c && isUpper d) eqn:Hup.
  - intros H; injection H as <-. repeat split.
    + simpl. destruct (isUpper a), (isUpper b), (isUpper c), (isUpper d);
        simpl in Hup; try discriminate; reflexivity.
    + now exists [], r'.
  - intros H. destruct (IH H) as [Hl [Hu [pre [post Hs]]]].
    repeat split; auto. exists (a :: pre), post. simpl. now rewrite Hs.
Qed.

(** What the line scan recovers comes from a line that mentions the
    type. *)
Lemma scanLines_sound (lines : list jsstring) (t : jsstring) :
  scanLines lines = t -> t <> [] ->
  exists line, In line lines /\ mentionsType line = true /\
               match_upper4 line = Some t.
Proof.
  induction lines as [|line rest IH]; simpl; [congruence|].
  intros H Hne.
  destruct (mentionsType line) eqn:Hm.
  - destruct (match_upper4 line) as [m|] eqn:Hu.
    + subst m. exists line. auto.
    + destruct (IH H Hne) as [l [Hin Hl]]. exists l. auto.
  - destruct (IH H Hne) as [l [Hin Hl]]. exists l. auto.
Qed.

(** ** The chain of tiers *)

Section ParserFacts.

Variable JSON_parse : jsstring -> option jsvalue.

(** No brace-delimited candidate: the line scan runs. *)
Lemma tier1_no_candidate (content : jsstring) :
  match_braces content = None ->
  parseAnalysisResult JSON_parse content = parseAlternativeFormat content.
Proof. unfold parseAnalysisResult. now intros ->. Qed.

(** A decoded candidate that lacks a required field: the line scan runs. *)
Lemma tier1_missing_field (content jsonMatch : jsstring) (decoded : jsvalue) :
  match_braces content = Some jsonMatch ->
  JSON_parse jsonMatch = Some decoded ->
  hasRequiredFields decoded = Some false ->
  parseAnalysisResult JSON_parse content = parseAlternativeFormat content.
Proof. unfold parseAnalysisResult. now intros -> -> ->. Qed.

(** A candidate that does not decode: the exception leaves the [try]
    block before the line scan is reached. *)
Lemma tier1_syntax_error (content jsonMatch : jsstring) :
  match_braces content = Some jsonMatch ->
  JSON_parse jsonMatch = None ->
  parseAnalysisResult JSON_parse content = JNull.
Proof. unfold parseAnalysisResult. now intros -> ->. Qed.

Lemma hasRequiredFields_true (decoded : jsvalue) :
  hasRequiredFields decoded = Some true ->
  truthy decoded = true /\
  exists t, get_prop decoded (js "mbtiType") = Some t /\ truthy t = true.
Proof.
  unfold hasRequiredFields.
  destruct decoded; simpl; try discriminate.
  destruct (lookup (js "mbtiType") props) as [t|]; simpl; [|discriminate].
  destruct (truthy t) eqn:Ht; [|discriminate].
  intros _. split; [reflexivity|]. now exists t.
Qed.

Lemma recoveredType_generateBasicAnalysis (t : jsstring) :
  recoveredType (generateBasicAnalysis t) = JString t.
Proof. reflexivity. Qed.

(** Whatever the parser returns is [null] or carries a truthy type. *)
Lemma parseAnalysisResult_shape (content : jsstring) :
  parseAnalysisResult JSON_parse content = JNull \/
  truthy (recoveredType (parseAnalysisResult JSON_parse content)) = true.
Proof.
  assert (Halt : parseAlternativeFormat content = JNull \/
                 truthy (recoveredType (parseAlternativeFormat content)) = true).
  { unfold parseAlternativeFormat.
    destruct (truthy (JString (scanLines (split_lines content)))) eqn:Ht;
      [right; now rewrite recoveredType_generateBasicAnalysis | now left]. }
  unfold parseAnalysisResult.
  destruct (match_braces content) as [m|]; [|exact Halt].
  destruct (JSON_parse m) as [decoded|]; [|now left].
  destruct (hasRequiredFields decoded) as [[|]|] eqn:Hf; auto.
  right. apply hasRequiredFields_true in Hf as [Ht [t [Hg Htt]]].
  unfold recoveredType. now rewrite Ht, Hg.
Qed.

End ParserFacts.

(** ** Tier 3 *)

Lemma upper_first_not_inherited (a : N) (r : jsstring) :
  isUpper a = true ->
  existsb (JsString.eqb (a :: r)) inheritedNames = false.
Proof.
  intros Hup. apply andb_true_iff in Hup as [_ Hle]. apply N.leb_le in Hle.
  assert (Hall : forallb (fun name => match name with
                                      | n :: _ => (90 <? n)%N
                                      | [] => true
                                      end) inheritedNames = true)
    by (vm_compute; reflexivity).
  rewrite forallb_forall in Hall.
  apply not_true_is_false. intros H. apply existsb_exists in H as [name [Hin He]].
  specialize (Hall name Hin). destruct name as [|n name]; [discriminate|].
  simpl in He. apply andb_true_iff in He as [He _].
  apply N.eqb_eq in He. apply N.ltb_lt in Hall. lia.
Qed.

(** Every type of four capitals other than the two entries of the table
    gets the default entry. *)
Lemma typeInfoFor_cases (t : jsstring) :
  forallb isUpper t = true -> t <> [] ->
  typeInfoFor t =
    if JsString.eqb (js "INTJ") t then typeInfo_INTJ else typeInfo_ENFP.
Proof.
  intros Hup Hne. unfold typeInfoFor, typeDescriptions. cbn [lookupTypeInfo].
  destruct (JsString.eqb (js "ENFP") t) eqn:He.
  - apply eqb_eq in He. subst t. reflexivity.
  - destruct (JsString.eqb (js "INTJ") t); [reflexivity|].
    destruct t as [|a r]; [congruence|].
    simpl in Hup. apply andb_true_iff in Hup as [Ha _].
    now rewrite (upper_first_not_inherited a r Ha).
Qed.

(** X5.  What the parser builds when there is no brace-delimited candidate and
    the line scan recovers a type. *)
Lemma tier3_synthesis (JSON_parse : jsstring -> option jsvalue)
    (content t : jsstring) :
  match_braces content = None ->
  scanLines (split_lines content) = t -> t <> [] ->
  let result := parseAnalysisResult JSON_parse content in
  result = generateBasicAnalysis t /\
  get_prop result (js "mbtiType") = Some (JString t) /\
  (forall a, confidenceOf result a = Some (JNumber num_0_75)) /\
  get_prop result (js "description") =
    Some (description (if JsString.eqb (js "INTJ") t
                       then typeInfo_INTJ else typeInfo_ENFP)) /\
  get_prop result (js "strengths") =
    Some (strengths (if JsString.eqb (js "INTJ") t
                     then typeInfo_INTJ else typeInfo_ENFP)) /\
  get_prop result (js "developmentAreas") =
    Some (developmentAreas (if JsString.eqb (js "INTJ") t
                            then typeInfo_INTJ else typeInfo_ENFP)) /\
  get_prop result (js "careerSuggestions") =
    Some (careerSuggestions (if JsString.eqb (js "INTJ") t
                             then typeInfo_INTJ else typeInfo_ENFP)).
Proof.
  intros Hm Hs Hne result.
  assert (Hr : result = generateBasicAnalysis t).
  { unfold result. rewrite (tier1_no_candidate _ _ Hm).
    unfold parseAlternativeFormat. rewrite Hs.
    destruct t; [congruence | reflexivity]. }
  destruct (scanLines_sound _ _ Hs Hne) as [line [_ [_ Hu]]].
  apply match_upper4_sound in Hu as [_ [Hup _]].
  rewrite Hr. split; [reflexivity|]. split; [reflexivity|].
  split; [intros []; reflexivity|].
  rewrite <- (typeInfoFor_cases t Hup Hne). repeat split.
Qed.

(** Tier 1 on a complete object inside prose. *)
Example tier1_decodes_jsonInProse :
  get_prop (parseAnalysisResult JSON_parse_ref Samples.jsonInProse) (js "mbtiType")
    = Some (JString (js "INTJ")) /\
  get_prop (parseAnalysisResult JSON_parse_ref Samples.jsonInProse) (js "confidence")
    = Some (JNumber (double_of_decimal false 85 (-2))) /\
  polesMatchType (parseAnalysisResult JSON_parse_ref Samples.jsonInProse).
Proof.
  split; [vm_compute; reflexivity|]. split; [vm_compute; reflexivity|].
  exists 73%N, 78%N, 84%N, 74%N. repeat split; vm_compute; reflexivity.
Qed.

(** A decoded object without the other fields goes on to the line scan,
    which reads the type off the same line. *)
Example tier1_incomplete_goes_to_line_scan :
  JSON_parse_ref Samples.jsonTypeOnly
    = Some (JObject [(js "mbtiType", JString (js "ENTP"))]) /\
  parseAnalysisResult JSON_parse_ref Samples.jsonTypeOnly
    = generateBasicAnalysis (js "ENTP").
Proof. split; vm_compute; reflexivity. Qed.

(** A type line and no braces: the result is synthesized. *)
Example type_line_only_is_synthesized :
  parseAnalysisResult JSON_parse_ref Samples.typeLineOnly
    = generateBasicAnalysis (js "INTJ") /\
  get_prop (generateBasicAnalysis (js "INTJ")) (js "description")
    = Some (description typeInfo_INTJ).
Proof. split; vm_compute; reflexivity. Qed.

(** The trigger phrases are matched with their case. *)
Example trigger_phrase_case :
  shouldAnalyze toLowerCase_ascii AI_CONFIG
    (Samples.sessionWith Samples.plainHistory 4) (js "你的MBTI是") = true /\
  shouldAnalyze toLowerCase_ascii AI_CONFIG
    (Samples.sessionWith Samples.plainHistory 4) (js "你的mbti是") = false.
Proof. split; vm_compute; reflexivity. Qed.

(** The two rejected candidates are rejected for their syntax, whatever
    the fuel. *)
Lemma bracesNotJson_rejected (fuel : nat) :
  parse_value fuel Samples.bracesNotJson = None.
Proof. destruct fuel as [|[|fuel]]; reflexivity. Qed.

Lemma proseBraces_rejected (fuel : nat) :
  parse_value fuel (js "{仅供参考}") = None.
Proof. destruct fuel as [|[|fuel]]; reflexivity. Qed.

(** The join puts a space between the turns: a keyword split over two
    turns is not found. *)
Example keyword_split_over_turns :
  axisCoveredb
    (conversationText toLowerCase_ascii [HumanMessage (js "聚"); AIMessage (js "会")])
    EI = false /\
  axisCoveredb
    (conversationText toLowerCase_ascii [HumanMessage (js "聚会")]) EI = true.
Proof. split; vm_compute; reflexivity. Qed.

(** C3.  A reply whose braces do not hold JSON: the pattern finds the
    candidate, decoding it throws, and the parser answers [null] without
    running the line scan, which would have recovered INTJ from the same
    text. *)
Theorem parseAnalysisResult_syntax_error_skips_line_scan :
  match_braces Samples.bracesNotJson = Some Samples.bracesNotJson /\
  JSON_parse_ref Samples.bracesNotJson = None /\
  (forall fuel, parse_value fuel Samples.bracesNotJson = None) /\
  parseAnalysisResult JSON_parse_ref Samples.bracesNotJson = JNull /\
  parseAlternativeFormat Samples.bracesNotJson = generateBasicAnalysis (js "INTJ").
Proof.
  assert (Hm : match_braces Samples.bracesNotJson = Some Samples.bracesNotJson)
    by (vm_compute; reflexivity).
  assert (Hp : JSON_parse_ref Samples.bracesNotJson = None)
    by (vm_compute; reflexivity).
  split; [exact Hm | split; [exact Hp | split; [|split]]].
  - exact bracesNotJson_rejected.
  - exact (tier1_syntax_error JSON_parse_ref _ _ Hm Hp).
  - vm_compute; reflexivity.
Qed.

(** C4.  A text with no valid JSON object and the line [类型: INTJ]: the
    braces of the prose are taken for a candidate, decoding throws, and
    the parser answers [null] instead of the result synthesized for
    INTJ. *)
Theorem parseAnalysisResult_type_line_lost_behind_braces :
  In (js "类型: INTJ") (split_lines Samples.proseWithTypeLine) /\
  match_upper4 (js "类型: INTJ") = Some (js "INTJ") /\
  match_braces Samples.proseWithTypeLine = Some (js "{仅供参考}") /\
  JSON_parse_ref (js "{仅供参考}") = None /\
  (forall fuel, parse_value fuel (js "{仅供参考}") = None) /\
  parseAnalysisResult JSON_parse_ref Samples.proseWithTypeLine = JNull /\
  parseAlternativeFormat Samples.proseWithTypeLine
    = generateBasicAnalysis (js "INTJ").
Proof.
  assert (Hm : match_braces Samples.proseWithTypeLine = Some (js "{仅供参考}"))
    by (vm_compute; reflexivity).
  assert (Hp : JSON_parse_ref (js "{仅供参考}") = None)
    by (vm_compute; reflexivity).
  split; [|split; [|split; [exact Hm | split; [exact Hp | split; [|split]]]]].
  - vm_compute. right. now left.
  - vm_compute; reflexivity.
  - exact proseBraces_rejected.
  - exact (tier1_syntax_error JSON_parse_ref _ _ Hm Hp).
  - vm_compute; reflexivity.
Qed.

(** C10.  For a type of four characters the synthesized dimensions have
    exactly the keys EI, SN, TF, JP, in that order, the pole of each axis
    is the character of the type at the position of the axis, and so the
    synthesized result meets the invariant of the data model. *)
Theorem generateDimensionsAnalysis_poles :
  forall mbtiType : jsstring,
    List.length mbtiType = 4 ->
    keys (generateDimensionsAnalysis mbtiType) = map axisName axes /\
    (forall (a : Axis) (i : nat),
        nth_error axes i = Some a ->
        exists c,
          nth_error mbtiType i = Some c /\
          poleOf (generateBasicAnalysis mbtiType) a = Some (JString [c])) /\
    get_prop (generateBasicAnalysis mbtiType) (js "dimensions")
      = Some (generateDimensionsAnalysis mbtiType) /\
    polesMatchType (generateBasicAnalysis mbtiType).
Proof.
  intros mbtiType Hlen.
  destruct mbtiType as [|c0 [|c1 [|c2 [|c3 [|c4 rest]]]]]; try discriminate.
  split; [reflexivity|]. split; [|split; [reflexivity|]].
  - intros a i Hi.
    destruct i as [|[|[|[|i]]]]; simpl in Hi;
      try (destruct i; discriminate); injection Hi as <-.
    + exists c0. split; reflexivity.
    + exists c1. split; reflexivity.
    + exists c2. split; reflexivity.
    + exists c3. split; reflexivity.
  - exists c0, c1, c2, c3. repeat split.
Qed.

(* ================================================================= *)
(** * The session operations *)

Lemma fallback_is_ENFP :
  get_prop generateFallbackAnalysis (js "mbtiType") = Some (JString (js "ENFP")) /\
  get_prop generateFallbackAnalysis (js "confidence") = Some (JNumber num_0_6) /\
  (forall a, confidenceOf generateFallbackAnalysis a = Some (JNumber num_0_6)) /\
  polesMatchType generateFallbackAnalysis.
Proof.
  split; [reflexivity|]. split; [reflexivity|]. split.
  - intros []; reflexivity.
  - exists 69%N, 78%N, 70%N, 80%N. repeat split.
Qed.

(** The double the literal [0.6] denotes lies within half a unit in the
    last place of six tenths. *)
Lemma num_0_6_value :
  num_0_6 = S754_finite false 5404319552844595 (-53) /\
  (10 * 5404319552844595 - 6 * 2 ^ 53 = -2)%Z.
Proof. split; reflexivity. Qed.

(** C5.  When the analysis is attempted (the flag is free) and the
    gateway call throws, or every tier of the parser fails, the step
    returns the default result and releases the flag; whatever the
    gateway does, an attempted analysis returns a result, never an error.
    The default result is the one written in the source: type ENFP with
    confidence 0.6 on the type and on each axis, the poles E, N, F, P
    each with its generic reason, and the generic description, strengths,
    development areas and career suggestions. *)
Theorem performMBTIAnalysis_masks_failure :
  forall (JSON_parse : jsstring -> option jsvalue) (st : State)
         (r : GatewayResult),
    isAnalyzing st = false ->
    ((exists msg, r = GatewayError msg) \/
     (exists reply, r = GatewayReply reply /\
                    parseAnalysisResult JSON_parse reply = JNull)) ->
    performMBTIAnalysis JSON_parse st r
      = (set_isAnalyzing st false, generateFallbackAnalysis) /\
    get_prop generateFallbackAnalysis (js "mbtiType") = Some (JString (js "ENFP")) /\
    get_prop generateFallbackAnalysis (js "confidence") = Some (JNumber num_0_6) /\
    (forall a, confidenceOf generateFallbackAnalysis a = Some (JNumber num_0_6)) /\
    (forall r', truthy (snd (performMBTIAnalysis JSON_parse st r')) = true) /\
    keys generateFallbackAnalysis
      = map js [ "mbtiType"; "confidence"; "dimensions"; "description";
                 "strengths"; "developmentAreas"; "careerSuggestions" ]%string /\
    (exists dims, get_prop generateFallbackAnalysis (js "dimensions") = Some dims /\
                  keys dims = map axisName axes /\
                  forall a, exists d,
                    get_prop dims (axisName a) = Some d /\
                    keys d = map js ["type"; "confidence"; "reason"]%string) /\
    polesMatchType generateFallbackAnalysis /\
    (poleOf generateFallbackAnalysis EI = Some (JString (js "E")) /\
     poleOf generateFallbackAnalysis SN = Some (JString (js "N")) /\
     poleOf generateFallbackAnalysis TF = Some (JString (js "F")) /\
     poleOf generateFallbackAnalysis JP = Some (JString (js "P"))) /\
    (reasonOf generateFallbackAnalysis EI
       = Some (JString (js "基于有限的对话信息推测用户偏向外向")) /\
     reasonOf generateFallbackAnalysis SN
       = Some (JString (js "用户表现出一定的直觉型特征")) /\
     reasonOf generateFallbackAnalysis TF
       = Some (JString (js "决策时似乎更重视人际关系和情感因素")) /\
     reasonOf generateFallbackAnalysis JP
       = Some (JString (js "表现出较强的灵活性和开放性"))) /\
    get_prop generateFallbackAnalysis (js "description")
      = Some (JString (js "基于有限的对话信息，初步分析显示用户可能属于ENFP类型。建议进行更深入的对话以获得更准确的分析结果。")) /\
    get_prop generateFallbackAnalysis (js "strengths")
      = Some (JArray [ JString (js "善于交流"); JString (js "富有创意");
                       JString (js "适应性强"); JString (js "关心他人") ]) /\
    get_prop generateFallbackAnalysis (js "developmentAreas")
      = Some (JArray [ JString (js "需要更多信息来准确评估发展领域") ]) /\
    get_prop generateFallbackAnalysis (js "careerSuggestions")
      = Some (JArray [ JString (js "建议进行更详细的对话以提供准确的职业建议") ]).
Proof.
  intros JSON_parse st r Hfree Hfail.
  destruct fallback_is_ENFP as [Ht [Hc [Hd Hp]]].
  split; [|split; [exact Ht | split; [exact Hc | split; [exact Hd|split]]]].
  - unfold performMBTIAnalysis, performMBTIAnalysis_begin. rewrite Hfree.
    unfold performMBTIAnalysis_resume, performMBTIAnalysis_try.
    destruct Hfail as [[msg ->] | [reply [-> Hnull]]].
    + destruct st; reflexivity.
    + rewrite Hnull. destruct st; reflexivity.
  - intros r'. unfold performMBTIAnalysis, performMBTIAnalysis_begin.
    rewrite Hfree. unfold performMBTIAnalysis_resume, performMBTIAnalysis_try.
    destruct r' as [reply | msg]; [|reflexivity].
    destruct (truthy (recoveredType (parseAnalysisResult JSON_parse reply)))
      eqn:Hok; [|reflexivity].
    simpl. unfold recoveredType in Hok.
    destruct (truthy (parseAnalysisResult JSON_parse reply)) eqn:Ha;
      [reflexivity | congruence].
  - split; [vm_compute; reflexivity|].
    split; [eexists; split; [reflexivity|];
            split; [vm_compute; reflexivity|];
            intros []; eexists; (split; [reflexivity | vm_compute; reflexivity])|].
    split; [exact Hp|].
    split; [repeat (split; [vm_compute; reflexivity|]); vm_compute; reflexivity|].
    split; [repeat (split; [vm_compute; reflexivity|]); vm_compute; reflexivity|].
    repeat (split; [vm_compute; reflexivity|]); vm_compute; reflexivity.
Qed.

(** C8.  After [resetConversation], whatever the state before, the
    history is empty, the counter is zero, the type is [null] and the
    analysis flag is free. *)
Theorem resetConversation_clears :
  forall st : State,
    getConversationHistory (resetConversation st) = [] /\
    questionsAsked (getUserInfo (resetConversation st)) = 0%N /\
    mbtiType (getUserInfo (resetConversation st)) = JNull /\
    isAnalyzing (resetConversation st) = false.
Proof. intros st. repeat split. Qed.

(** C9.  When the chat call of [sendMessage] fails, the call throws the
    service's error carrying the gateway's message, and the state it
    leaves differs from the one it found: the user's message is the new
    last entry of the history, and the counter is as before. *)
Theorem sendMessage_gateway_failure :
  forall (toLowerCase : jsstring -> jsstring)
         (JSON_parse : jsstring -> option jsvalue) (cfg : Config)
         (st : State) (userMessage msg : jsstring) (r2 : GatewayResult),
    isModelReady st = true ->
    let out := sendMessage toLowerCase JSON_parse cfg st userMessage
                 (GatewayError msg) r2 in
    snd out = Throws (js "AI请求失败: " ++ msg) /\
    conversationHistory (fst out)
      = conversationHistory st ++ [HumanMessage userMessage] /\
    questionsAsked (userInfo (fst out)) = questionsAsked (userInfo st) /\
    fst out <> st.
Proof.
  intros toLowerCase JSON_parse cfg st userMessage msg r2 Hready out.
  unfold out, sendMessage, sendMessage_begin. rewrite Hready. simpl.
  repeat split.
  intros H. apply (f_equal conversationHistory) in H. simpl in H.
  apply (f_equal (@List.length Msg)) in H. rewrite length_app in H.
  simpl in H. lia.
Qed.

(* ================================================================= *)
(** * Interleaved executions *)

Lemma filter_remove_nth {A : Type} (p : A -> bool) (l : list A) (i : nat) (t : A) :
  nth_error l i = Some t ->
  List.length (filter p l)
  = List.length (filter p (remove_nth i l)) + (if p t then 1 else 0).
Proof.
  revert i; induction l as [|x l IH]; intros [|i]; simpl; try discriminate.
  - intros H; injection H as ->. destruct (p t); simpl; lia.
  - intros H. specialize (IH i H). destruct (p x); simpl; lia.
Qed.

Lemma filter_snoc_length {A : Type} (p : A -> bool) (l : list A) (t : A) :
  List.length (filter p (l ++ [t]))
  = List.length (filter p l) + (if p t then 1 else 0).
Proof.
  rewrite filter_app, length_app. simpl. destruct (p t); reflexivity.
Qed.

Lemma assistantTurns_push (st : State) (m : Msg) :
  assistantTurns (push st m)
  = (assistantTurns st + (if isAI m then 1 else 0))%N.
Proof.
  unfold assistantTurns, push. simpl. rewrite filter_snoc_length.
  destruct (isAI m); lia.
Qed.

Section SysFacts.

Variable toLowerCase : jsstring -> jsstring.
Variable JSON_parse : jsstring -> option jsvalue.
Variable cfg : Config.

(** What the end of an analysis leaves of the state. *)
Lemma performMBTIAnalysis_resume_state (st : State) (r : GatewayResult) :
  let st' := fst (performMBTIAnalysis_resume JSON_parse st r) in
  isAnalyzing st' = false /\
  conversationHistory st' = conversationHistory st /\
  questionsAsked (userInfo st') = questionsAsked (userInfo st).
Proof.
  unfold performMBTIAnalysis_resume, performMBTIAnalysis_try.
  destruct r as [reply | msg]; simpl; auto.
  destruct (truthy _); simpl; auto.
Qed.

Lemma step_flagTracksCall (s : Sys) (e : Event) :
  flagTracksCall s ->
  (e = CallResetConversation -> analysesInFlight s = 0) ->
  flagTracksCall (step toLowerCase JSON_parse cfg s e).
Proof.
  unfold flagTracksCall, analysesInFlight.
  destruct s as [st pend sess ra wa]. simpl. intros Hinv Hreset.
  destruct e as [userMessage | | | i r]; simpl.
  - unfold sendMessage_begin. destruct (isModelReady st); simpl; [|exact Hinv].
    rewrite filter_snoc_length. simpl. lia.
  - destruct (isModelReady st); simpl; [|exact Hinv].
    rewrite filter_snoc_length. simpl. lia.
  - now apply Hreset.
  - destruct (nth_error pend i) as [t|] eqn:Ht; simpl; [|exact Hinv].
    pose proof (filter_remove_nth isAnalysisCall pend i t Ht) as Hrm.
    destruct t as [| response issued |]; simpl in *.
    + unfold sendMessage_onReply, performMBTIAnalysis_begin.
      destruct r as [reply | msg]; simpl; [|lia].
      destruct (shouldAnalyze _ _ _ _); simpl; [|lia].
      destruct (isAnalyzing st) eqn:Hflag; simpl; [rewrite Hflag; lia|].
      rewrite filter_snoc_length. simpl. lia.
    + unfold sendMessage_onAnalysis.
      pose proof (performMBTIAnalysis_resume_state st r) as [Hf _].
      destruct (performMBTIAnalysis_resume JSON_parse st r) as [st' a].
      simpl in *. rewrite Hf. destruct (isAnalyzing st); lia.
    + destruct r as [reply | msg]; simpl; lia.
Qed.

Lemma run_flagTracksCall (trace : list Event) (s : Sys) :
  flagTracksCall s ->
  resetsWhenIdle toLowerCase JSON_parse cfg s trace = true ->
  flagTracksCall (run toLowerCase JSON_parse cfg s trace).
Proof.
  revert s; induction trace as [|e trace IH]; intros s Hinv Hidle.
  - exact Hinv.
  - simpl in Hidle. apply andb_true_iff in Hidle as [He Hrest].
    change (run toLowerCase JSON_parse cfg s (e :: trace)) with (run toLowerCase JSON_parse cfg (step toLowerCase JSON_parse cfg s e) trace).
    apply IH; [|exact Hrest].
    apply step_flagTracksCall; [exact Hinv|].
    intros ->. now apply Nat.eqb_eq in He.
Qed.

Lemma step_counterTracksReplies (s : Sys) (e : Event) :
  counterTracksReplies s -> counterTracksReplies (step toLowerCase JSON_parse cfg s e).
Proof.
  unfold counterTracksReplies.
  destruct s as [st pend sess ra wa]. simpl. intros [Hq Ha].
  destruct e as [userMessage | | | i r]; simpl.
  - unfold sendMessage_begin. destruct (isModelReady st); simpl; [|auto].
    rewrite assistantTurns_push. simpl. split; [exact Hq | lia].
  - destruct (isModelReady st); simpl; auto.
  - split; reflexivity.
  - destruct (nth_error pend i) as [t|]; simpl; [|auto].
    destruct t as [| response issued |]; simpl.
    + unfold sendMessage_onReply, performMBTIAnalysis_begin.
      destruct r as [reply | msg]; simpl; [|auto].
      assert (Hturns : assistantTurns (push st (AIMessage reply))
                       = (assistantTurns st + 1)%N)
        by (rewrite assistantTurns_push; reflexivity).
      unfold assistantTurns in *. simpl in Hturns.
      destruct (shouldAnalyze _ _ _ _); simpl;
        [destruct (isAnalyzing st) eqn:Hflag; simpl; try rewrite Hflag; simpl|];
        (split; [lia | rewrite Hturns; lia]).
    + unfold sendMessage_onAnalysis.
      pose proof (performMBTIAnalysis_resume_state st r) as [_ [Hh Hk]].
      destruct (performMBTIAnalysis_resume JSON_parse st r) as [st' a].
      simpl in *. unfold assistantTurns. rewrite Hh, Hk. auto.
    + destruct r as [reply | msg]; simpl; [|auto].
      rewrite assistantTurns_push. simpl. split; [exact Hq | lia].
Qed.

Lemma run_counterTracksReplies (trace : list Event) (s : Sys) :
  counterTracksReplies s -> counterTracksReplies (run toLowerCase JSON_parse cfg s trace).
Proof.
  revert s; induction trace as [|e trace IH]; intros s Hinv; [exact Hinv|].
  change (run toLowerCase JSON_parse cfg s (e :: trace)) with (run toLowerCase JSON_parse cfg (step toLowerCase JSON_parse cfg s e) trace).
  apply IH, step_counterTracksReplies, Hinv.
Qed.

End SysFacts.

Lemma initial_flagTracksCall (ready : bool) : flagTracksCall (initialSys ready).
Proof. reflexivity. Qed.

Lemma initial_counterTracksReplies (ready : bool) :
  counterTracksReplies (initialSys ready).
Proof. split; reflexivity. Qed.

(** C6, as the code has it.  An analysis step that finds the flag set
    returns [null] at once, leaves the state as it is and makes no
    gateway call; the end of an analysis releases the flag; and in every
    execution from the start of the service in which
    [resetConversation] is not called while an analysis call is in
    flight, at most one analysis call is in flight, and the flag is set
    exactly then. *)
Theorem analysis_calls_do_not_overlap :
  forall (toLowerCase : jsstring -> jsstring)
         (JSON_parse : jsstring -> option jsvalue) (cfg : Config)
         (ready : bool) (trace : list Event),
    resetsWhenIdle toLowerCase JSON_parse cfg (initialSys ready) trace = true ->
    let s := run toLowerCase JSON_parse cfg (initialSys ready) trace in
    (forall st, isAnalyzing st = true ->
       performMBTIAnalysis_begin st = (st, false) /\
       forall r, performMBTIAnalysis JSON_parse st r = (st, JNull)) /\
    (forall st r,
       isAnalyzing (fst (performMBTIAnalysis_resume JSON_parse st r)) = false) /\
    analysesInFlight s <= 1 /\
    (isAnalyzing (state s) = true <-> analysesInFlight s = 1).
Proof.
  intros toLowerCase JSON_parse cfg ready trace Hidle s.
  assert (Hinv : flagTracksCall s).
  { apply run_flagTracksCall; [apply initial_flagTracksCall | exact Hidle]. }
  unfold flagTracksCall in Hinv.
  split; [|split; [|split]].
  - intros st Hflag. unfold performMBTIAnalysis, performMBTIAnalysis_begin.
    rewrite Hflag. split; reflexivity.
  - intros st r. apply performMBTIAnalysis_resume_state.
  - destruct (isAnalyzing (state s)); lia.
  - destruct (isAnalyzing (state s)); split; intros H; try reflexivity;
      try discriminate; lia.
Qed.

(** Against C6 as stated: two analysis calls issued after the last reset
    are in flight at once at the end of [overlapTrace]. *)
Lemma analysis_calls_overlap_after_reset :
  let s := run toLowerCase_ascii JSON_parse_ref AI_CONFIG (initialSys true)
             Samples.overlapTrace in
  analysesInFlightOfSession s = 2 /\ ~ analysesInFlightOfSession s <= 1.
Proof.
  assert (H : analysesInFlightOfSession
                (run toLowerCase_ascii JSON_parse_ref AI_CONFIG (initialSys true)
                   Samples.overlapTrace) = 2) by (vm_compute; reflexivity).
  cbv zeta. rewrite H. split; [reflexivity | lia].
Qed.

(** C7, as the code has it.  In every execution from the start of the
    service, [questionsAsked] is the number of replies that [sendMessage]
    appended since the last reset, and the assistant turns of the history
    are those replies together with the welcome messages that
    [getWelcomeMessage] appended. *)
Theorem questionsAsked_counts_sendMessage_replies :
  forall (toLowerCase : jsstring -> jsstring)
         (JSON_parse : jsstring -> option jsvalue) (cfg : Config)
         (ready : bool) (trace : list Event),
    let s := run toLowerCase JSON_parse cfg (initialSys ready) trace in
    questionsAsked (userInfo (state s)) = repliesAppended s /\
    assistantTurns (state s) = (repliesAppended s + welcomesAppended s)%N.
Proof.
  intros toLowerCase JSON_parse cfg ready trace.
  apply run_counterTracksReplies, initial_counterTracksReplies.
Qed.

(** Against C7 as stated: after the welcome message the history holds one
    assistant turn and the counter is still zero. *)
Lemma welcome_turn_is_not_counted :
  let s := run toLowerCase_ascii JSON_parse_ref AI_CONFIG (initialSys true)
             Samples.welcomeTrace in
  assistantTurns (state s) = 1%N /\
  questionsAsked (userInfo (state s)) = 0%N /\
  questionsAsked (userInfo (state s)) <> assistantTurns (state s).
Proof.
  cbv zeta. split; [vm_compute; reflexivity|].
  split; [vm_compute; reflexivity|].
  vm_compute. discriminate.
Qed.

(* ================================================================= *)
(** * The theorems at the sample sessions *)

Lemma covered_by_test (text : jsstring) (covered : list Axis) :
  (forall a, existsb (Axis_eqb a) covered = axisCoveredb text a) ->
  forall a, In a covered <-> axisCovered a text.
Proof.
  intros H a. rewrite <- axisCoveredb_spec, <- H, existsb_exists. split.
  - intros Hin. exists a. split; [exact Hin | now apply Axis_eqb_eq].
  - intros [b [Hin Hb]]. apply Axis_eqb_eq in Hb. now subst b.
Qed.

Lemma shouldAnalyze_iff_witness :
  shouldAnalyze toLowerCase_ascii AI_CONFIG
    (Samples.sessionWith Samples.plainHistory 3) Samples.replyWithPhrase = false /\
  shouldAnalyze toLowerCase_ascii AI_CONFIG
    (Samples.sessionWith Samples.plainHistory 4) Samples.replyWithPhrase = true.
Proof.
  split.
  - apply (shouldAnalyze_iff toLowerCase_ascii AI_CONFIG
             (Samples.sessionWith Samples.plainHistory 3) Samples.replyWithPhrase).
    simpl. lia.
  - apply (shouldAnalyze_iff toLowerCase_ascii AI_CONFIG
             (Samples.sessionWith Samples.plainHistory 4) Samples.replyWithPhrase).
    split; [simpl; lia|]. left. exists (js "分析"). split; [simpl; auto|].
    exists (js "好的，让我来"), (js "一下。"). reflexivity.
Defined.

Lemma hasCollectedEnoughDimensionInfo_spec_witness :
  hasCollectedEnoughDimensionInfo toLowerCase_ascii
    (Samples.sessionWith Samples.threeAxes 0) = true /\
  hasCollectedEnoughDimensionInfo toLowerCase_ascii
    (Samples.sessionWith Samples.twoAxes 0) = false.
Proof.
  split.
  - apply (hasCollectedEnoughDimensionInfo_spec toLowerCase_ascii
             (Samples.sessionWith Samples.threeAxes 0) [EI; SN; JP]).
    + repeat constructor; simpl; intuition discriminate.
    + apply covered_by_test. intros []; vm_compute; reflexivity.
    + reflexivity.
  - apply (hasCollectedEnoughDimensionInfo_spec toLowerCase_ascii
             (Samples.sessionWith Samples.twoAxes 0) [EI; SN]).
    + repeat constructor; simpl; intuition discriminate.
    + apply covered_by_test. intros []; vm_compute; reflexivity.
    + reflexivity.
Defined.

Lemma performMBTIAnalysis_masks_failure_witness :
  performMBTIAnalysis JSON_parse_ref
    (Samples.sessionWith Samples.plainHistory 4) (GatewayError (js "fetch failed"))
  = (Samples.sessionWith Samples.plainHistory 4, generateFallbackAnalysis) /\
  performMBTIAnalysis JSON_parse_ref
    (Samples.sessionWith Samples.plainHistory 4) (GatewayReply Samples.noResult)
  = (Samples.sessionWith Samples.plainHistory 4, generateFallbackAnalysis).
Proof.
  split.
  - apply (performMBTIAnalysis_masks_failure JSON_parse_ref
             (Samples.sessionWith Samples.plainHistory 4)
             (GatewayError (js "fetch failed"))).
    + reflexivity.
    + left. now exists (js "fetch failed").
  - apply (performMBTIAnalysis_masks_failure JSON_parse_ref
             (Samples.sessionWith Samples.plainHistory 4)
             (GatewayReply Samples.noResult)).
    + reflexivity.
    + right. exists Samples.noResult. split; [reflexivity | vm_compute; reflexivity].
Defined.

Lemma analysis_calls_do_not_overlap_witness :
  resetsWhenIdle toLowerCase_ascii JSON_parse_ref AI_CONFIG (initialSys true)
    Samples.quietTrace = true /\
  analysesInFlight
    (run toLowerCase_ascii JSON_parse_ref AI_CONFIG (initialSys true)
       Samples.quietTrace) <= 1.
Proof.
  assert (H : resetsWhenIdle toLowerCase_ascii JSON_parse_ref AI_CONFIG
                (initialSys true) Samples.quietTrace = true)
    by (vm_compute; reflexivity).
  split; [exact H|].
  apply (analysis_calls_do_not_overlap toLowerCase_ascii JSON_parse_ref AI_CONFIG
           true Samples.quietTrace H).
Defined.

Lemma sendMessage_gateway_failure_witness :
  conversationHistory
    (fst (sendMessage toLowerCase_ascii JSON_parse_ref AI_CONFIG
            (Samples.sessionWith Samples.plainHistory 2) (js "我更喜欢独处")
            (GatewayError (js "fetch failed")) (GatewayError (js "fetch failed"))))
  = Samples.plainHistory ++ [HumanMessage (js "我更喜欢独处")].
Proof.
  apply (sendMessage_gateway_failure toLowerCase_ascii JSON_parse_ref AI_CONFIG
           (Samples.sessionWith Samples.plainHistory 2) (js "我更喜欢独处")
           (js "fetch failed") (GatewayError (js "fetch failed"))).
  reflexivity.
Defined.

Lemma generateDimensionsAnalysis_poles_witness :
  polesMatchType (generateBasicAnalysis (js "INTJ")).
Proof.
  apply (generateDimensionsAnalysis_poles (js "INTJ")).
  reflexivity.
Defined.

(* ================================================================= *)
(** * Further properties of the result parser *)

Lemma split_lines_single (s : jsstring) :
  ~ In LF s -> split_lines s = [s].
Proof.
  induction s as [|c s IH]; intros Hn; simpl; [reflexivity|].
  destruct (N.eqb_spec c LF) as [->|Hne].
  - exfalso. apply Hn. now left.
  - rewrite IH; [reflexivity|]. intros H. apply Hn. now right.
Qed.

Lemma match_upper4_skips (pre s : jsstring) :
  forallb (fun c => negb (isUpper c)) pre = true ->
  match_upper4 (pre ++ s) = match_upper4 s.
Proof.
  induction pre as [|x pre IH]; simpl; [reflexivity|].
  intros H. apply andb_true_iff in H as [Hx Hpre].
  apply negb_true_iff in Hx. rewrite Hx. simpl.
  destruct (pre ++ s) as [|b [|c [|d r]]] eqn:E; rewrite <- ?E; auto;
    rewrite <- (IH Hpre); rewrite E; reflexivity.
Qed.

Lemma match_upper4_nonempty (line m : jsstring) :
  match_upper4 line = Some m -> m <> [].
Proof.
  intros H. apply match_upper4_sound in H as [Hl _].
  destruct m; [discriminate | congruence].
Qed.

Lemma generateBasicAnalysis_has_fields (t : jsstring) :
  forallb isUpper t = true -> t <> [] ->
  hasRequiredFields (generateBasicAnalysis t) = Some true.
Proof.
  intros Hup Hne. unfold generateBasicAnalysis.
  rewrite (typeInfoFor_cases t Hup Hne).
  destruct t as [|a r]; [congruence|].
  destruct (JsString.eqb (js "INTJ") (a :: r)); reflexivity.
Qed.

Lemma parseAnalysisResult_fields
    (JSON_parse : jsstring -> option jsvalue) (content : jsstring) :
  parseAnalysisResult JSON_parse content = JNull \/
  hasRequiredFields (parseAnalysisResult JSON_parse content) = Some true.
Proof.
  assert (Halt : parseAlternativeFormat content = JNull \/
                 hasRequiredFields (parseAlternativeFormat content) = Some true).
  { unfold parseAlternativeFormat.
    destruct (scanLines (split_lines content)) as [|a r] eqn:Hs; [now left|].
    right. cbn [truthy].
    assert (Hne : a :: r <> []) by discriminate.
    destruct (scanLines_sound _ _ Hs Hne) as [line [_ [_ Hu]]].
    apply match_upper4_sound in Hu as [_ [Hup _]].
    now apply generateBasicAnalysis_has_fields. }
  unfold parseAnalysisResult.
  destruct (match_braces content) as [m|]; [|exact Halt].
  destruct (JSON_parse m) as [decoded|]; [|now left].
  destruct (hasRequiredFields decoded) as [[|]|] eqn:Hf; auto.
Qed.

Lemma hasRequiredFields_object (v : jsvalue) :
  hasRequiredFields v = Some true -> exists props, v = JObject props.
Proof.
  destruct v; simpl; try discriminate. intros _. now exists props.
Qed.

(** X1.  Whatever the parser returns other than [null] is an object that
    passes the parser's own check of the required fields, with a truthy
    type, on the decoded path and on the synthesized one. *)
Theorem parseAnalysisResult_postcondition :
  forall (JSON_parse : jsstring -> option jsvalue) (content : jsstring),
    parseAnalysisResult JSON_parse content = JNull \/
    (hasRequiredFields (parseAnalysisResult JSON_parse content) = Some true /\
     (exists props, parseAnalysisResult JSON_parse content = JObject props) /\
     exists t, get_prop (parseAnalysisResult JSON_parse content) (js "mbtiType")
                 = Some t /\ truthy t = true).
Proof.
  intros JSON_parse content.
  destruct (parseAnalysisResult_fields JSON_parse content) as [H|H];
    [now left | right].
  split; [exact H|]. split; [now apply hasRequiredFields_object|].
  apply hasRequiredFields_true in H as [_ H]. exact H.
Qed.

(** X2.  Tier 1 finds a result object inside prose: when no opening brace
    precedes the object, no closing brace follows it, it decodes, and the
    decoded value has the required fields, that value is the result. *)
Theorem tier1_embedded_in_prose :
  forall (JSON_parse : jsstring -> option jsvalue)
         (pre body post : jsstring) (decoded : jsvalue),
    ~ In LBRACE pre -> ~ In RBRACE post ->
    JSON_parse (LBRACE :: body ++ [RBRACE]) = Some decoded ->
    hasRequiredFields decoded = Some true ->
    parseAnalysisResult JSON_parse (pre ++ LBRACE :: body ++ RBRACE :: post)
      = decoded.
Proof.
  intros JSON_parse pre body post decoded Hpre Hpost Hparse Hfields.
  assert (Hm : match_braces (pre ++ LBRACE :: body ++ RBRACE :: post)
               = Some (LBRACE :: body ++ [RBRACE])).
  { apply match_braces_spec. exists pre, body, post. auto. }
  unfold parseAnalysisResult. now rewrite Hm, Hparse, Hfields.
Qed.

(** X3.  The line scan takes the capitals of the first line that mentions the
    type and holds four consecutive capitals, and recovers nothing
    exactly when no line does both. *)
Theorem scanLines_first_match :
  forall (skipped : list jsstring) (line : jsstring) (rest : list jsstring)
         (m : jsstring),
    (forall l, In l skipped ->
       mentionsType l = false \/ match_upper4 l = None) ->
    mentionsType line = true ->
    match_upper4 line = Some m ->
    scanLines (skipped ++ line :: rest) = m /\
    m <> [] /\
    (forall lines,
       scanLines lines = [] <->
       forall l, In l lines ->
         mentionsType l = false \/ match_upper4 l = None).
Proof.
  intros skipped line rest m Hskip Hline Hm.
  split; [|split].
  - induction skipped as [|l skipped IH]; simpl.
    + now rewrite Hline, Hm.
    + destruct (Hskip l (or_introl eq_refl)) as [H|H]; rewrite H.
      * apply IH. intros l' Hl'. apply Hskip. now right.
      * destruct (mentionsType l); apply IH; intros l' Hl'; apply Hskip;
          now right.
  - exact (match_upper4_nonempty _ _ Hm).
  - induction lines as [|l lines IH]; simpl.
    + split; [intros _ l [] | reflexivity].
    + destruct (mentionsType l) eqn:Hl.
      * destruct (match_upper4 l) as [m'|] eqn:Hu.
        -- split.
           ++ intros ->. now apply match_upper4_nonempty in Hu.
           ++ intros H. destruct (H l (or_introl eq_refl)); congruence.
        -- rewrite IH. split.
           ++ intros H l' [<-|Hl']; [now right | now apply H].
           ++ intros H l' Hl'. apply H. now right.
      * rewrite IH. split.
        -- intros H l' [<-|Hl']; [now left | now apply H].
        -- intros H l' Hl'. apply H. now right.
Qed.

(** X4.  On a reply of one line that mentions the type, the recovered type is
    the first four capitals that follow text without capitals, whatever
    comes after them: a longer capital word is cut to its first four
    letters, and the word MBTI itself is taken when it comes first. *)
Theorem parseAlternativeFormat_leftmost_capitals :
  forall (pre rest : jsstring) (a b c d : N),
    let line := pre ++ a :: b :: c :: d :: rest in
    ~ In LF line ->
    mentionsType line = true ->
    forallb (fun x => negb (isUpper x)) pre = true ->
    isUpper a && isUpper b && isUpper c && isUpper d = true ->
    parseAlternativeFormat line = generateBasicAnalysis [a; b; c; d].
Proof.
  intros pre rest a b c d line Hlf Hmention Hpre Hup.
  unfold parseAlternativeFormat. rewrite (split_lines_single _ Hlf).
  assert (Hm : match_upper4 line = Some [a; b; c; d]).
  { unfold line. rewrite (match_upper4_skips _ _ Hpre). simpl. now rewrite Hup. }
  simpl. now rewrite Hmention, Hm.
Qed.

(* ================================================================= *)
(** * Further properties of the session operations *)

Lemma truthy_get_prop (v : jsvalue) (k : jsstring) :
  truthy v = true -> exists x, get_prop v k = Some x.
Proof.
  destruct v; simpl; try discriminate; intros _; eauto.
  destruct (lookup k props); eauto.
Qed.

Lemma resetConversation_idempotent (st : State) :
  resetConversation (resetConversation st) = resetConversation st.
Proof. reflexivity. Qed.

(** X6.  While the model is not ready nothing happens: [sendMessage] throws
    its own error and [getWelcomeMessage] returns the warning, both
    without touching the state, and no sequence of calls of the API
    changes the history or the counter or sends anything to the
    gateway. *)
Theorem not_ready_no_effect :
  forall (toLowerCase : jsstring -> jsstring)
         (JSON_parse : jsstring -> option jsvalue) (cfg : Config)
         (st : State),
    isModelReady st = false ->
    (forall m r1 r2,
       sendMessage toLowerCase JSON_parse cfg st m r1 r2
       = (st, Throws (js "DeepSeek AI模型未初始化，请检查配置文件"))) /\
    (forall r, getWelcomeMessage st r = (st, notReadyWarning)) /\
    (forall (trace : list Event) (s : Sys),
       state s = st -> pending s = [] ->
       pending (run toLowerCase JSON_parse cfg s trace) = [] /\
       (state (run toLowerCase JSON_parse cfg s trace) = st \/
        state (run toLowerCase JSON_parse cfg s trace) = resetConversation st)).
Proof.
  intros toLowerCase JSON_parse cfg st Hnot.
  split; [|split].
  - intros m r1 r2. unfold sendMessage, sendMessage_begin. now rewrite Hnot.
  - intros r. unfold getWelcomeMessage. now rewrite Hnot.
  - intros trace.
    assert (Hgen : forall s,
              isModelReady (state s) = false -> pending s = [] ->
              (state s = st \/ state s = resetConversation st) ->
              pending (run toLowerCase JSON_parse cfg s trace) = [] /\
              (state (run toLowerCase JSON_parse cfg s trace) = st \/
               state (run toLowerCase JSON_parse cfg s trace)
               = resetConversation st)).
    { induction trace as [|e trace IH]; intros s Hr Hp Hs; [auto|].
      change (run toLowerCase JSON_parse cfg s (e :: trace))
        with (run toLowerCase JSON_parse cfg
                (step toLowerCase JSON_parse cfg s e) trace).
      destruct e as [m | | | i r]; simpl.
      - unfold sendMessage_begin. rewrite Hr. simpl. now apply IH.
      - rewrite Hr. simpl. now apply IH.
      - apply IH; simpl; auto. right.
        destruct Hs as [-> | ->]; reflexivity.
      - rewrite Hp. destruct i; simpl; now apply IH. }
    intros s Hs Hp. apply Hgen; [now rewrite Hs | exact Hp | now left].
Qed.

(** X7.  On a reply of the gateway, [sendMessage] appends exactly the user's
    message and the reply, advances the counter by one and returns the
    reply as [message]; [isComplete] is the verdict of the trigger on the
    updated state.  Without a trigger, or when an analysis is already in
    progress, [analysis] is [null] and nothing else changes: so
    [isComplete] can be true with no analysis in the result. *)
Theorem sendMessage_reply_postcondition :
  forall (toLowerCase : jsstring -> jsstring)
         (JSON_parse : jsstring -> option jsvalue) (cfg : Config)
         (st : State) (userMessage reply : jsstring) (r2 : GatewayResult),
    isModelReady st = true ->
    let out := sendMessage toLowerCase JSON_parse cfg st userMessage
                 (GatewayReply reply) r2 in
    exists res,
      snd out = Returns res /\
      message res = reply /\
      conversationHistory (fst out)
        = conversationHistory st ++ [HumanMessage userMessage; AIMessage reply] /\
      questionsAsked (userInfo (fst out))
        = (questionsAsked (userInfo st) + 1)%N /\
      isComplete res
        = shouldAnalyze toLowerCase cfg (afterReply st userMessage reply) reply /\
      (isComplete res = false \/ isAnalyzing st = true ->
       analysis res = JNull /\ fst out = afterReply st userMessage reply).
Proof.
  intros toLowerCase JSON_parse cfg st userMessage reply r2 Hready out.
  unfold out, sendMessage, sendMessage_begin, sendMessage_onReply.
  rewrite Hready. cbn [negb].
  fold (afterReply st userMessage reply).
  assert (Hh : conversationHistory (afterReply st userMessage reply)
               = conversationHistory st ++ [HumanMessage userMessage; AIMessage reply]).
  { unfold afterReply. simpl. now rewrite <- app_assoc. }
  assert (Hq : questionsAsked (userInfo (afterReply st userMessage reply))
               = (questionsAsked (userInfo st) + 1)%N) by reflexivity.
  destruct (shouldAnalyze toLowerCase cfg (afterReply st userMessage reply) reply).
  - unfold performMBTIAnalysis_begin.
    change (isAnalyzing (afterReply st userMessage reply)) with (isAnalyzing st).
    destruct (isAnalyzing st) eqn:Hflag.
    + eexists. cbn [fst snd].
      split; [reflexivity|]. split; [reflexivity|]. split; [exact Hh|].
      split; [exact Hq|]. split; [reflexivity|]. intros _. now split.
    + unfold sendMessage_onAnalysis.
      pose proof (performMBTIAnalysis_resume_state JSON_parse
                    (set_isAnalyzing (afterReply st userMessage reply) true) r2)
        as [_ [Hh' Hq']].
      destruct (performMBTIAnalysis_resume JSON_parse _ r2) as [st' a].
      cbn [fst snd] in *. eexists.
      split; [reflexivity|]. split; [reflexivity|].
      split; [now rewrite Hh'|]. split; [now rewrite Hq'|].
      split; [reflexivity|]. intros [H|H]; discriminate.
  - eexists. cbn [fst snd].
    split; [reflexivity|]. split; [reflexivity|]. split; [exact Hh|].
    split; [exact Hq|]. split; [reflexivity|]. intros _. now split.
Qed.

(** X8.  An analysis that is attempted always ends with the flag free, the
    history and the counter as they were, and a result that has the
    required fields.  Either the default result was substituted and the
    user's record is untouched, so that [mbtiType] keeps its old value
    while the caller is handed ENFP, or the recorded [mbtiType] is the
    type of the result returned. *)
Theorem performMBTIAnalysis_postcondition :
  forall (JSON_parse : jsstring -> option jsvalue) (st : State)
         (r : GatewayResult),
    isAnalyzing st = false ->
    let out := performMBTIAnalysis JSON_parse st r in
    hasRequiredFields (snd out) = Some true /\
    isAnalyzing (fst out) = false /\
    conversationHistory (fst out) = conversationHistory st /\
    questionsAsked (userInfo (fst out)) = questionsAsked (userInfo st) /\
    ((snd out = generateFallbackAnalysis /\ userInfo (fst out) = userInfo st) \/
     (get_prop (snd out) (js "mbtiType") = Some (mbtiType (userInfo (fst out))) /\
      exists reply, r = GatewayReply reply /\
                    snd out = parseAnalysisResult JSON_parse reply)).
Proof.
  intros JSON_parse st r Hfree out.
  unfold out, performMBTIAnalysis, performMBTIAnalysis_begin. rewrite Hfree.
  unfold performMBTIAnalysis_resume, performMBTIAnalysis_try.
  destruct r as [reply | msg].
  - destruct (truthy (recoveredType (parseAnalysisResult JSON_parse reply)))
      eqn:Hok; cbn [fst snd].
    + assert (Ht : truthy (parseAnalysisResult JSON_parse reply) = true).
      { unfold recoveredType in Hok.
        destruct (truthy (parseAnalysisResult JSON_parse reply)) eqn:Ha;
          [reflexivity | congruence]. }
      destruct (truthy_get_prop _ (js "mbtiType") Ht) as [x Hx].
      repeat split.
      * destruct (parseAnalysisResult_fields JSON_parse reply) as [H|H];
          [|exact H].
        rewrite H in Ht. discriminate.
      * right. split; [|now exists reply].
        unfold recoveredType. rewrite Ht, Hx. reflexivity.
    + repeat split. now left.
  - cbn [fst snd]. repeat split. now left.
Qed.

Ltac extends_by suffix :=
  split; [exists suffix; rewrite ?app_nil_r; reflexivity
         | split; [simpl; lia | split; reflexivity]].

Lemma step_no_reset_extends
    (toLowerCase : jsstring -> jsstring)
    (JSON_parse : jsstring -> option jsvalue) (cfg : Config)
    (s : Sys) (e : Event) :
  e <> CallResetConversation ->
  let s' := step toLowerCase JSON_parse cfg s e in
  (exists suffix, conversationHistory (state s')
                  = conversationHistory (state s) ++ suffix) /\
  (questionsAsked (userInfo (state s))
   <= questionsAsked (userInfo (state s')))%N /\
  isModelReady (state s') = isModelReady (state s) /\
  session s' = session s.
Proof.
  intros Hne. destruct s as [st pend sess ra wa].
  destruct e as [m | | | i r]; simpl; try congruence.
  - unfold sendMessage_begin. destruct (isModelReady st) eqn:Hr; simpl.
    + rewrite Hr. extends_by [HumanMessage m].
    + rewrite Hr. extends_by (@nil Msg).
  - destruct (isModelReady st) eqn:Hr; simpl; rewrite ?Hr; extends_by (@nil Msg).
  - destruct (nth_error pend i) as [t|]; simpl; [|extends_by (@nil Msg)].
    destruct t as [| response issued |]; simpl.
    + unfold sendMessage_onReply, performMBTIAnalysis_begin.
      destruct r as [reply | msg]; simpl; [|extends_by (@nil Msg)].
      destruct (shouldAnalyze _ _ _ _); simpl;
        [destruct (isAnalyzing st); simpl|]; extends_by [AIMessage reply].
    + unfold sendMessage_onAnalysis.
      pose proof (performMBTIAnalysis_resume_state JSON_parse st r)
        as [_ [Hh Hq]].
      assert (Hr : isModelReady (fst (performMBTIAnalysis_resume JSON_parse st r))
                   = isModelReady st).
      { unfold performMBTIAnalysis_resume, performMBTIAnalysis_try.
        destruct r; simpl; [destruct (truthy _)|]; reflexivity. }
      destruct (performMBTIAnalysis_resume JSON_parse st r) as [st' a].
      simpl in *. rewrite Hh, Hq, Hr. extends_by (@nil Msg).
    + destruct r as [reply | msg]; simpl;
        [extends_by [AIMessage reply] | extends_by (@nil Msg)].
Qed.

(** X9.  Between two resets the history only grows at its end and the counter
    never goes down, under every interleaving of calls and gateway
    results. *)
Theorem history_append_only :
  forall (toLowerCase : jsstring -> jsstring)
         (JSON_parse : jsstring -> option jsvalue) (cfg : Config)
         (trace : list Event) (s : Sys),
    noReset trace = true ->
    let s' := run toLowerCase JSON_parse cfg s trace in
    (exists suffix, conversationHistory (state s')
                    = conversationHistory (state s) ++ suffix) /\
    (questionsAsked (userInfo (state s))
     <= questionsAsked (userInfo (state s')))%N /\
    (assistantTurns (state s) <= assistantTurns (state s'))%N.
Proof.
  intros toLowerCase JSON_parse cfg trace.
  assert (Hgen : forall s, noReset trace = true ->
            (exists suffix,
               conversationHistory (state (run toLowerCase JSON_parse cfg s trace))
               = conversationHistory (state s) ++ suffix) /\
            (questionsAsked (userInfo (state s))
             <= questionsAsked
                  (userInfo (state (run toLowerCase JSON_parse cfg s trace))))%N).
  { induction trace as [|e trace IH]; intros s Hno.
    - split; [exists []; now rewrite app_nil_r | simpl; lia].
    - simpl in Hno. apply andb_true_iff in Hno as [He Hno].
      change (run toLowerCase JSON_parse cfg s (e :: trace))
        with (run toLowerCase JSON_parse cfg
                (step toLowerCase JSON_parse cfg s e) trace).
      assert (Hne : e <> CallResetConversation) by (intros ->; discriminate).
      destruct (step_no_reset_extends toLowerCase JSON_parse cfg s e Hne)
        as [[suf1 H1] [Hq1 _]].
      destruct (IH (step toLowerCase JSON_parse cfg s e) Hno) as [[suf2 H2] Hq2].
      split.
      + exists (suf1 ++ suf2). rewrite H2, H1. now rewrite app_assoc.
      + lia. }
  intros s Hno s'. destruct (Hgen s Hno) as [[suffix Hs] Hq].
  split; [now exists suffix | split; [exact Hq|]].
  unfold s', assistantTurns. rewrite Hs, filter_app, length_app. lia.
Qed.

(** X10.  [resetConversation] does not cancel what is in flight.  A chat reply
    that settles after the reset becomes the first turn of the fresh
    history and is counted; an analysis that settles after the reset
    writes its type into the fresh record. *)
Theorem reset_does_not_cancel_calls_in_flight :
  forall (toLowerCase : jsstring -> jsstring)
         (JSON_parse : jsstring -> option jsvalue) (cfg : Config)
         (s : Sys) (i : nat) (reply : jsstring),
    let s' := step toLowerCase JSON_parse cfg
                (step toLowerCase JSON_parse cfg s CallResetConversation)
                (Settle i (GatewayReply reply)) in
    (nth_error (pending s) i = Some AwaitReply ->
     conversationHistory (state s') = [AIMessage reply] /\
     questionsAsked (userInfo (state s')) = 1%N) /\
    (forall response issued,
       nth_error (pending s) i = Some (AwaitAnalysis response issued) ->
       parseAnalysisResult JSON_parse reply <> JNull ->
       conversationHistory (state s') = [] /\
       truthy (mbtiType (userInfo (state s'))) = true /\
       get_prop (parseAnalysisResult JSON_parse reply) (js "mbtiType")
         = Some (mbtiType (userInfo (state s')))).
Proof.
  intros toLowerCase JSON_parse cfg s i reply s'.
  destruct s as [st pend sess ra wa]. unfold s'. simpl. split.
  - intros ->. simpl. unfold sendMessage_onReply, performMBTIAnalysis_begin.
    simpl. destruct (shouldAnalyze _ _ _ _); simpl; auto.
  - intros response issued -> Hnn. simpl.
    unfold sendMessage_onAnalysis, performMBTIAnalysis_resume,
      performMBTIAnalysis_try.
    destruct (parseAnalysisResult_shape JSON_parse reply) as [H|H];
      [contradiction|].
    rewrite H. simpl. repeat split; [exact H|].
    unfold recoveredType in *.
    destruct (truthy (parseAnalysisResult JSON_parse reply)) eqn:Ht;
      [|congruence].
    destruct (truthy_get_prop _ (js "mbtiType") Ht) as [x Hx].
    now rewrite Hx.
Qed.

(* ================================================================= *)
(** * Further properties of the trigger *)

Lemma substring_of_trans (a b c : jsstring) :
  substring_of a b -> substring_of b c -> substring_of a c.
Proof.
  intros [p1 [q1 ->]] [p2 [q2 ->]]. exists (p2 ++ p1), (q1 ++ q2).
  now rewrite <- !app_assoc.
Qed.

Lemma filter_length_mono {A : Type} (p q : A -> bool) (l : list A) :
  (forall a, p a = true -> q a = true) ->
  List.length (filter p l) <= List.length (filter q l).
Proof.
  intros H. induction l as [|x l IH]; simpl; [lia|].
  destruct (p x) eqn:Hp.
  - rewrite (H x Hp). simpl. lia.
  - destruct (q x); simpl; lia.
Qed.

Lemma coveredDimensions_mono (text text' : jsstring) :
  substring_of text text' ->
  (coveredDimensions text <= coveredDimensions text')%N.
Proof.
  intros Hsub. rewrite !coveredDimensions_count.
  assert (List.length (filter (axisCoveredb text) axes)
          <= List.length (filter (axisCoveredb text') axes)); [|lia].
  apply filter_length_mono. intros a Ha.
  apply axisCoveredb_spec in Ha as [kw [Hin Hkw]].
  apply axisCoveredb_spec. exists kw. split; [exact Hin|].
  exact (substring_of_trans _ _ _ Hkw Hsub).
Qed.

(** X12.  The counter of covered axes is at most four and never shrinks when
    the text grows; so once three axes are covered and the counter of
    questions reaches the threshold with the next reply, that reply
    completes the session whatever it says, provided lower-casing the
    longer transcript extends the lower-cased shorter one. *)
Theorem coverage_is_kept_by_later_turns :
  forall (toLowerCase : jsstring -> jsstring) (cfg : Config) (st : State)
         (userMessage reply : jsstring),
    (exists more,
       conversationText toLowerCase
         (conversationHistory st ++ [HumanMessage userMessage; AIMessage reply])
       = conversationText toLowerCase (conversationHistory st) ++ more) ->
    hasCollectedEnoughDimensionInfo toLowerCase st = true ->
    (minQuestionsBeforeAnalysis cfg <= questionsAsked (userInfo st) + 1)%N ->
    (forall text, (coveredDimensions text <= 4)%N) /\
    hasCollectedEnoughDimensionInfo toLowerCase
      (afterReply st userMessage reply) = true /\
    shouldAnalyze toLowerCase cfg (afterReply st userMessage reply) reply = true.
Proof.
  intros toLowerCase cfg st userMessage reply [more Hmore] Hcov Hq.
  assert (Hcov' : hasCollectedEnoughDimensionInfo toLowerCase
                    (afterReply st userMessage reply) = true).
  { unfold hasCollectedEnoughDimensionInfo in *.
    apply N.leb_le in Hcov. apply N.leb_le.
    assert (Hh : conversationHistory (afterReply st userMessage reply)
                 = conversationHistory st
                   ++ [HumanMessage userMessage; AIMessage reply]).
    { unfold afterReply. simpl. now rewrite <- app_assoc. }
    rewrite Hh, Hmore.
    etransitivity; [exact Hcov|].
    apply coveredDimensions_mono. exists [], more. reflexivity. }
  split; [|split; [exact Hcov'|]].
  - intros text. rewrite coveredDimensions_count.
    pose proof (List.filter_length_le (axisCoveredb text) axes) as H.
    change (List.length axes) with 4 in H. lia.
  - unfold shouldAnalyze. rewrite Hcov', orb_true_r, andb_true_r.
    apply N.leb_le. simpl. exact Hq.
Qed.

(* ================================================================= *)
(** * The further properties at sample inputs *)

Lemma tier1_embedded_in_prose_witness :
  get_prop (parseAnalysisResult JSON_parse_ref Samples.jsonInProse)
    (js "mbtiType") = Some (JString (js "INTJ")).
Proof.
  pose (candidate := match match_braces Samples.jsonInProse with
                     | Some m => m
                     | None => []
                     end).
  pose (body := removelast (tl candidate)).
  pose (decoded := match JSON_parse_ref candidate with
                   | Some d => d
                   | None => JNull
                   end).
  assert (E : Samples.jsonInProse
              = js "分析如下：" ++ LBRACE :: body ++ RBRACE :: js " 以上。")
    by (vm_compute; reflexivity).
  rewrite E.
  rewrite (tier1_embedded_in_prose JSON_parse_ref (js "分析如下：") body
             (js " 以上。") decoded).
  - vm_compute; reflexivity.
  - vm_compute. intuition discriminate.
  - vm_compute. intuition discriminate.
  - vm_compute; reflexivity.
  - vm_compute; reflexivity.
Defined.

Lemma scanLines_first_match_witness :
  scanLines [js "分析结果如下"; js "类型: 待定"; js "mbtiType: ENTP"; js "类型: INTJ"]
  = js "ENTP".
Proof.
  apply (scanLines_first_match [js "分析结果如下"; js "类型: 待定"]
           (js "mbtiType: ENTP") [js "类型: INTJ"] (js "ENTP")).
  - intros l [<- | [<- | []]]; [left | right]; vm_compute; reflexivity.
  - vm_compute; reflexivity.
  - vm_compute; reflexivity.
Defined.

Lemma parseAlternativeFormat_leftmost_capitals_witness :
  parseAlternativeFormat (js "你的MBTI类型是INTJ") = generateBasicAnalysis (js "MBTI") /\
  parseAlternativeFormat (js "类型: INTJX") = generateBasicAnalysis (js "INTJ").
Proof.
  split.
  - apply (parseAlternativeFormat_leftmost_capitals (js "你的") (js "类型是INTJ")
             77 66 84 73).
    + vm_compute. intuition discriminate.
    + vm_compute; reflexivity.
    + vm_compute; reflexivity.
    + vm_compute; reflexivity.
  - apply (parseAlternativeFormat_leftmost_capitals (js "类型: ") (js "X")
             73 78 84 74).
    + vm_compute. intuition discriminate.
    + vm_compute; reflexivity.
    + vm_compute; reflexivity.
    + vm_compute; reflexivity.
Defined.

Lemma not_ready_no_effect_witness :
  state (run toLowerCase_ascii JSON_parse_ref AI_CONFIG (initialSys false)
           Samples.quietTrace) = initialState false \/
  state (run toLowerCase_ascii JSON_parse_ref AI_CONFIG (initialSys false)
           Samples.quietTrace) = resetConversation (initialState false).
Proof.
  apply (not_ready_no_effect toLowerCase_ascii JSON_parse_ref AI_CONFIG
           (initialState false)); reflexivity.
Defined.

Lemma sendMessage_reply_postcondition_witness :
  exists res,
    snd (sendMessage toLowerCase_ascii JSON_parse_ref AI_CONFIG
           (Samples.sessionWith Samples.plainHistory 1) (js "我更喜欢独处")
           (GatewayReply Samples.plainReply) (GatewayError (js "unused")))
    = Returns res /\ message res = Samples.plainReply.
Proof.
  destruct (sendMessage_reply_postcondition toLowerCase_ascii JSON_parse_ref
              AI_CONFIG (Samples.sessionWith Samples.plainHistory 1)
              (js "我更喜欢独处") Samples.plainReply (GatewayError (js "unused"))
              eq_refl) as [res [H1 [H2 _]]].
  exists res. split; [exact H1 | exact H2].
Defined.

Lemma performMBTIAnalysis_postcondition_witness :
  hasRequiredFields
    (snd (performMBTIAnalysis JSON_parse_ref
            (Samples.sessionWith Samples.plainHistory 4)
            (GatewayReply Samples.typeLineOnly))) = Some true.
Proof.
  apply (performMBTIAnalysis_postcondition JSON_parse_ref
           (Samples.sessionWith Samples.plainHistory 4)
           (GatewayReply Samples.typeLineOnly)).
  reflexivity.
Defined.

Lemma history_append_only_witness :
  exists suffix,
    conversationHistory
      (state (run toLowerCase_ascii JSON_parse_ref AI_CONFIG midSession
                [Settle 0 (GatewayReply Samples.plainReply);
                 CallSendMessage (js "好")]))
    = conversationHistory (state midSession) ++ suffix.
Proof.
  apply (history_append_only toLowerCase_ascii JSON_parse_ref AI_CONFIG
           [Settle 0 (GatewayReply Samples.plainReply); CallSendMessage (js "好")]
           midSession).
  reflexivity.
Defined.

Lemma reset_does_not_cancel_calls_in_flight_witness :
  conversationHistory
    (state (step toLowerCase_ascii JSON_parse_ref AI_CONFIG
              (step toLowerCase_ascii JSON_parse_ref AI_CONFIG midSession
                 CallResetConversation)
              (Settle 0 (GatewayReply Samples.plainReply))))
  = [AIMessage Samples.plainReply] /\
  truthy (mbtiType (userInfo
    (state (step toLowerCase_ascii JSON_parse_ref AI_CONFIG
              (step toLowerCase_ascii JSON_parse_ref AI_CONFIG midAnalysis
                 CallResetConversation)
              (Settle 0 (GatewayReply Samples.typeLineOnly)))))) = true.
Proof.
  split.
  - apply (reset_does_not_cancel_calls_in_flight toLowerCase_ascii
             JSON_parse_ref AI_CONFIG midSession 0 Samples.plainReply).
    reflexivity.
  - apply (proj2 (reset_does_not_cancel_calls_in_flight toLowerCase_ascii
                    JSON_parse_ref AI_CONFIG midAnalysis 0 Samples.typeLineOnly)
             Samples.replyWithPhrase 0 eq_refl).
    vm_compute. discriminate.
Defined.

Lemma coverage_is_kept_by_later_turns_witness :
  shouldAnalyze toLowerCase_ascii AI_CONFIG
    (afterReply (Samples.sessionWith Samples.threeAxes 3) (js "好")
       Samples.plainReply) Samples.plainReply = true.
Proof.
  apply (coverage_is_kept_by_later_turns toLowerCase_ascii AI_CONFIG
           (Samples.sessionWith Samples.threeAxes 3) (js "好") Samples.plainReply).
  - exists (toLowerCase_ascii (js " " ++ js "好" ++ js " " ++ Samples.plainReply)).
    vm_compute; reflexivity.
  - vm_compute; reflexivity.
  - vm_compute. discriminate.
Defined.

Lemma shouldAnalyze_trigger_phrase
    (toLowerCase : jsstring -> jsstring) (cfg : Config) (st : State)
    (reply : jsstring) :
  (minQuestionsBeforeAnalysis cfg <= questionsAsked (userInfo st))%N ->
  hasTriggerPhrase cfg reply ->
  shouldAnalyze toLowerCase cfg st reply = true.
Proof.
  intros Hq Hp. unfold shouldAnalyze.
  apply andb_true_iff. split; [now apply N.leb_le|].
  apply orb_true_iff. left. now apply some_includes_spec.
Qed.

(* ================================================================= *)
(** * Prompts and requests *)

(** X14.  The request of the exchange that reaches the threshold still tells
    the model that more information is needed: the hint is computed from
    the counter before the reply is counted, the trigger from the counter
    after.  The request carries the system prompt and then the whole
    history, the new message last; a reply with a trigger phrase
    completes the session. *)
Theorem hint_lags_the_trigger :
  forall (toLowerCase : jsstring -> jsstring)
         (JSON_parse : jsstring -> option jsvalue) (cfg : Config)
         (st : State) (userMessage reply : jsstring) (r2 : GatewayResult),
    isModelReady st = true ->
    (questionsAsked (userInfo st) + 1 = minQuestionsBeforeAnalysis cfg)%N ->
    hasTriggerPhrase cfg reply ->
    sendMessage_request cfg st userMessage
      = SystemMessage
          (systemPromptHead
             ++ (js "你已经问了" ++ numberToString (questionsAsked (userInfo st))
                   ++ js "个问题，还需要更多信息来进行准确分析。")
             ++ systemPromptTail)
        :: map Turn (conversationHistory st ++ [HumanMessage userMessage]) /\
    progressHint cfg st <> hintEnough /\
    exists res,
      snd (sendMessage toLowerCase JSON_parse cfg st userMessage
             (GatewayReply reply) r2) = Returns res /\
      isComplete res = true.
Proof.
  intros toLowerCase JSON_parse cfg st userMessage reply r2 Hready Hq Hphrase.
  assert (Hlt : (minQuestionsBeforeAnalysis cfg <=? questionsAsked (userInfo st))%N
                = false) by (apply N.leb_gt; lia).
  split; [|split].
  - unfold sendMessage_request, getSystemPrompt, progressHint. simpl.
    now rewrite Hlt.
  - unfold progressHint. rewrite Hlt. vm_compute. discriminate.
  - assert (Htrig : shouldAnalyze toLowerCase cfg
                      (afterReply st userMessage reply) reply = true).
    { apply shouldAnalyze_trigger_phrase; [|exact Hphrase].
      simpl. lia. }
    unfold sendMessage, sendMessage_begin, sendMessage_onReply.
    rewrite Hready. cbn [negb]. fold (afterReply st userMessage reply).
    rewrite Htrig. unfold performMBTIAnalysis_begin.
    destruct (isAnalyzing (afterReply st userMessage reply)).
    + eexists. split; reflexivity.
    + unfold sendMessage_onAnalysis.
      destruct (performMBTIAnalysis_resume JSON_parse _ r2) as [st' a].
      eexists. split; reflexivity.
Qed.

Lemma split_lines_cons_line (x rest : jsstring) :
  ~ In LF x ->
  split_lines (x ++ LF :: rest) = x :: split_lines rest.
Proof.
  induction x as [|c x IH]; intros Hn; simpl.
  - reflexivity.
  - destruct (N.eqb_spec c LF) as [->|Hne].
    + exfalso. apply Hn. now left.
    + rewrite IH; [reflexivity|]. intros H. apply Hn. now right.
Qed.

Lemma split_lines_join (ls : list jsstring) :
  ls <> [] ->
  (forall l, In l ls -> ~ In LF l) ->
  split_lines (join [LF] ls) = ls.
Proof.
  induction ls as [|x ls IH]; [congruence|].
  intros _ Hall. destruct ls as [|y ls].
  - simpl. apply split_lines_single. apply Hall. now left.
  - change (join [LF] (x :: y :: ls)) with (x ++ LF :: join [LF] (y :: ls)).
    rewrite split_lines_cons_line by (apply Hall; now left).
    f_equal. apply IH; [discriminate|].
    intros l Hl. apply Hall. now right.
Qed.

Lemma transcriptLine_no_LF (m : Msg) :
  ~ In LF (content m) -> ~ In LF (transcriptLine m).
Proof.
  intros Hn H. unfold transcriptLine in H.
  destruct m as [c | c]; simpl in H;
    repeat (destruct H as [H|H]; [discriminate|]); now apply Hn.
Qed.

Lemma transcriptLine_injective (m1 m2 : Msg) :
  transcriptLine m1 = transcriptLine m2 -> m1 = m2.
Proof.
  destruct m1 as [c1 | c1], m2 as [c2 | c2]; unfold transcriptLine; simpl;
    intros H; try discriminate; injection H as ->; reflexivity.
Qed.

(** X15.  The transcript of the analysis prompt determines the history as long
    as no turn holds a line feed; with a line feed it does not: a user
    message can carry a line that reads as an assistant turn. *)
Theorem transcript_determines_history :
  forall h1 h2 : list Msg,
    (forall m, In m (h1 ++ h2) -> ~ In LF (content m)) ->
    (transcript h1 = transcript h2 -> h1 = h2) /\
    (forall a b : jsstring,
       transcript [HumanMessage (a ++ [LF] ++ js "AI: " ++ b)]
       = transcript [HumanMessage a; AIMessage b]).
Proof.
  intros h1 h2 Hlf. split.
  - intros Heq.
    assert (Hlines : forall h, (forall m, In m h -> ~ In LF (content m)) ->
              h <> [] -> split_lines (transcript h) = map transcriptLine h).
    { intros h Hh Hne. apply split_lines_join.
      - destruct h; [congruence | discriminate].
      - intros l Hl. apply in_map_iff in Hl as [m [<- Hm]].
        apply transcriptLine_no_LF, Hh, Hm. }
    assert (Hinj : forall a b : list Msg,
              map transcriptLine a = map transcriptLine b -> a = b).
    { induction a as [|x a IH]; intros [|y b] H; simpl in H;
        try discriminate; [reflexivity|].
      injection H as Hx Hr. f_equal; [now apply transcriptLine_injective | auto]. }
    assert (Hne : forall h, h <> [] -> transcript h <> []).
    { intros [|m h] Hh; [congruence|]. unfold transcript.
      destruct m, h; discriminate. }
    destruct h1 as [|m1 h1], h2 as [|m2 h2].
    + reflexivity.
    + exfalso. symmetry in Heq. revert Heq. apply Hne. discriminate.
    + exfalso. revert Heq. apply Hne. discriminate.
    + apply Hinj. rewrite <- !Hlines; try discriminate.
      * now rewrite Heq.
      * intros m Hm. apply Hlf, in_or_app. now right.
      * intros m Hm. apply Hlf, in_or_app. now left.
  - intros a b. unfold transcript, transcriptLine. simpl.
    rewrite <- ?app_assoc. reflexivity.
Qed.

(* ================================================================= *)
(** * Configuration check and model start *)

(** X16.  With a non-empty literal behind the environment variable, the key is
    always truthy: [validateConfig] answers true whatever the environment
    holds, and starting the model succeeds or fails with the constructor
    alone. *)
Theorem validateConfig_never_fails :
  forall (env : jsvalue) (literal : jsstring) (constructed : bool)
         (ms : ModelState),
    literal <> [] ->
    let key := apiKey env (JString literal) in
    validateConfig key = true /\
    snd (initializeDeepSeekModel key constructed ms) = constructed /\
    isModelReadyOf (fst (initializeDeepSeekModel key constructed ms))
      = constructed.
Proof.
  intros env literal constructed ms Hne key.
  assert (Hk : truthy key = true).
  { unfold key, apiKey, jsOr. destruct (truthy env) eqn:He; [exact He|].
    destruct literal; [congruence | reflexivity]. }
  assert (Hv : validateConfig key = true)
    by (unfold validateConfig; now rewrite Hk).
  split; [exact Hv|].
  unfold initializeDeepSeekModel. rewrite Hv.
  destruct constructed; split; reflexivity.
Qed.

(** X17.  Whatever the key: the call returns true only when the model is ready
    afterwards; a constructor that throws leaves the model not ready even
    if one was ready before; and a rejected key returns false without
    touching the refs, so a model that was ready stays ready. *)
Theorem initializeDeepSeekModel_outcomes :
  forall (key : jsvalue) (constructed : bool) (ms : ModelState),
    let out := initializeDeepSeekModel key constructed ms in
    (snd out = true <-> validateConfig key = true /\ constructed = true) /\
    (snd out = true -> isModelReadyOf (fst out) = true) /\
    (validateConfig key = true -> isModelReadyOf (fst out) = constructed) /\
    (validateConfig key = false -> fst out = ms /\ snd out = false).
Proof.
  intros key constructed ms out. unfold out, initializeDeepSeekModel.
  destruct (validateConfig key), constructed; simpl;
    repeat split; intros; try tauto; try discriminate; intuition discriminate.
Qed.

(* ================================================================= *)
(** * The chat view *)

Lemma trimStart_head (s : jsstring) (c : N) (r : jsstring) :
  View.trimStart s = c :: r -> View.isTrimmed c = false.
Proof.
  induction s as [|x s IH]; simpl; [discriminate|].
  destruct (View.isTrimmed x) eqn:Hx; [exact IH|].
  intros H. injection H as <- _. exact Hx.
Qed.

Lemma trimStart_snoc (l : jsstring) (c : N) :
  View.isTrimmed c = false ->
  View.trimStart (l ++ [c]) = View.trimStart l ++ [c].
Proof.
  intros Hc. induction l as [|x l IH]; simpl.
  - now rewrite Hc.
  - destruct (View.isTrimmed x); [exact IH | reflexivity].
Qed.

Lemma trimStart_whitespace (s : jsstring) :
  forallb View.isTrimmed s = true -> View.trimStart s = [].
Proof.
  induction s as [|x s IH]; simpl; [reflexivity|].
  intros H. apply andb_true_iff in H as [Hx Hs]. now rewrite Hx, IH.
Qed.

(** What [trim] returns begins and ends with characters it does not
    remove. *)
Lemma trim_ends (s : jsstring) (c : N) (r : jsstring) :
  View.trim s = c :: r ->
  View.isTrimmed c = false /\ View.isTrimmed (last r c) = false.
Proof.
  unfold View.trim. destruct (View.trimStart s) as [|c0 r0] eqn:Ht.
  - discriminate.
  - pose proof (trimStart_head _ _ _ Ht) as Hc0.
    simpl rev at 2. rewrite (trimStart_snoc _ _ Hc0), rev_app_distr. simpl.
    intros H. injection H as <- <-. split; [exact Hc0|].
    destruct (View.trimStart (rev r0)) as [|d u] eqn:Hu; [exact Hc0|].
    simpl. rewrite last_last. exact (trimStart_head _ _ _ Hu).
Qed.

Lemma shownTurns_app (l l' : list View.Message) :
  View.shownTurns (l ++ l') = View.shownTurns l ++ View.shownTurns l'.
Proof.
  induction l as [|m l IH]; simpl; [reflexivity|].
  destruct m as [c [| |] | d]; simpl; now rewrite ?IH.
Qed.

Section ViewFacts.

Variable toLowerCase : jsstring -> jsstring.
Variable JSON_parse : jsstring -> option jsvalue.
Variable cfg : Config.

(** The service's [sendMessage] on a ready model, as the view sees it. *)
Lemma sendMessage_seen (st : State) (m : jsstring) (r1 r2 : GatewayResult) :
  isModelReady st = true ->
  let out := sendMessage toLowerCase JSON_parse cfg st m r1 r2 in
  isModelReady (fst out) = true /\
  match r1 with
  | GatewayReply reply =>
    conversationHistory (fst out)
      = conversationHistory st ++ [HumanMessage m; AIMessage reply] /\
    exists res, snd out = Returns res /\ message res = reply
  | GatewayError e =>
    conversationHistory (fst out) = conversationHistory st ++ [HumanMessage m] /\
    snd out = Throws (js "AI请求失败: " ++ e)
  end.
Proof.
  intros Hready. unfold sendMessage, sendMessage_begin, sendMessage_onReply.
  rewrite Hready. cbn [negb]. destruct r1 as [reply | e]; [|now split].
  fold (afterReply st m reply).
  assert (Hh : conversationHistory (afterReply st m reply)
               = conversationHistory st ++ [HumanMessage m; AIMessage reply]).
  { unfold afterReply. simpl. now rewrite <- app_assoc. }
  destruct (shouldAnalyze toLowerCase cfg (afterReply st m reply) reply).
  - unfold performMBTIAnalysis_begin.
    destruct (isAnalyzing (afterReply st m reply)); cbn [fst snd].
    + split; [exact Hready|]. split; [exact Hh|]. eexists. now split.
    + unfold sendMessage_onAnalysis, performMBTIAnalysis_resume,
        performMBTIAnalysis_try.
      destruct r2 as [a | e]; [destruct (truthy _)|]; cbn [fst snd];
        (split; [exact Hready|]; split; [exact Hh|]; eexists; now split).
  - cbn [fst snd]. split; [exact Hready|]. split; [exact Hh|].
    eexists. now split.
Qed.

End ViewFacts.

Section ViewTheorems.

Variable toLowerCase : jsstring -> jsstring.
Variable JSON_parse : jsstring -> option jsvalue.
Variable cfg : Config.

Lemma startNewConversation_inStep (v : View.View) (st : State)
    (r : GatewayResult) :
  isModelReady st = true ->
  inStep (View.startNewConversation v st r).
Proof.
  intros Hready. unfold inStep, View.startNewConversation, getWelcomeMessage.
  simpl. rewrite Hready. simpl.
  destruct r as [reply | e]; simpl; auto.
Qed.

Lemma sendMessage_inStep (vs : View.View * State) (r1 r2 : GatewayResult) :
  inStep vs ->
  inStep (View.sendMessage toLowerCase JSON_parse cfg (fst vs) (snd vs) r1 r2).
Proof.
  destruct vs as [v st]. intros [Hready [Hload [Hdone Hshown]]].
  simpl in *. unfold View.sendMessage.
  destruct (View.canSendMessage v); simpl; [|now repeat split].
  pose proof (sendMessage_seen toLowerCase JSON_parse cfg st
                (View.trim (View.inputMessage v)) r1 r2 Hready) as Hseen.
  destruct (sendMessage toLowerCase JSON_parse cfg st
              (View.trim (View.inputMessage v)) r1 r2) as [st' outcome].
  simpl in Hseen. destruct Hseen as [Hready' Hseen].
  unfold inStep. simpl. split; [exact Hready'|].
  destruct r1 as [reply | e].
  - destruct Hseen as [Hh [res [-> Hmsg]]]. rewrite Hh.
    destruct (View.showsResult (analysis res)); simpl;
      (split; [reflexivity|]); rewrite !existsb_app, !shownTurns_app; simpl;
      rewrite ?Hmsg, <- ?app_assoc; simpl.
    + split; [now rewrite !orb_true_r|].
      destruct Hshown as [-> | ->]; [left | right]; reflexivity.
    + split; [now rewrite Hdone, !orb_false_r|].
      destruct Hshown as [-> | ->]; [left | right]; reflexivity.
  - destruct Hseen as [Hh ->]. rewrite Hh. simpl.
    split; [reflexivity|]. rewrite !existsb_app, !shownTurns_app. simpl.
    rewrite <- ?app_assoc. simpl.
    split; [now rewrite Hdone, !orb_false_r|].
    destruct Hshown as [-> | ->]; [left | right]; reflexivity.
Qed.

Lemma use_inStep (actions : list View.Action) (vs : View.View * State) :
  inStep vs -> inStep (View.use toLowerCase JSON_parse cfg vs actions).
Proof.
  revert vs; induction actions as [|a actions IH]; intros vs Hin; [exact Hin|].
  change (View.use toLowerCase JSON_parse cfg vs (a :: actions))
    with (View.use toLowerCase JSON_parse cfg
            (View.act toLowerCase JSON_parse cfg vs a) actions).
  apply IH. destruct a as [text | r1 r2 | r]; simpl.
  - destruct vs as [v st]. exact Hin.
  - now apply sendMessage_inStep.
  - apply startNewConversation_inStep. apply Hin.
Qed.

End ViewTheorems.

(** X18.  The view sends nothing while it is loading or while the input is
    blank: neither the view nor the service changes.  What it does send
    is the input without the white space around it, which is not empty;
    the input field is cleared and the loading flag released. *)
Theorem view_send_gate :
  forall (toLowerCase : jsstring -> jsstring)
         (JSON_parse : jsstring -> option jsvalue) (cfg : Config)
         (v : View.View) (st : State) (r1 r2 : GatewayResult),
    let out := View.sendMessage toLowerCase JSON_parse cfg v st r1 r2 in
    (View.isLoading v = true \/
     forallb View.isTrimmed (View.inputMessage v) = true ->
     out = (v, st)) /\
    (View.canSendMessage v = true -> isModelReady st = true ->
     exists c rest tail,
       View.trim (View.inputMessage v) = c :: rest /\
       View.isTrimmed c = false /\
       View.isTrimmed (last rest c) = false /\
       conversationHistory (snd out)
         = conversationHistory st ++ HumanMessage (c :: rest) :: tail /\
       View.inputMessage (fst out) = [] /\
       View.isLoading (fst out) = false).
Proof.
  intros toLowerCase JSON_parse cfg v st r1 r2 out. split.
  - intros H. unfold out, View.sendMessage, View.canSendMessage.
    destruct H as [-> | H]; [reflexivity|].
    unfold View.trim. rewrite (trimStart_whitespace _ H). simpl.
    now rewrite andb_false_r.
  - intros Hcan Hready. unfold out, View.sendMessage. rewrite Hcan. simpl.
    unfold View.canSendMessage in Hcan.
    apply andb_true_iff in Hcan as [_ Hlen]. apply Nat.ltb_lt in Hlen.
    destruct (View.trim (View.inputMessage v)) as [|c rest] eqn:Ht;
      [simpl in Hlen; lia|].
    destruct (trim_ends _ _ _ Ht) as [Hc Hl].
    pose proof (sendMessage_seen toLowerCase JSON_parse cfg st (c :: rest)
                  r1 r2 Hready) as Hseen.
    destruct (sendMessage toLowerCase JSON_parse cfg st (c :: rest) r1 r2)
      as [st' outcome].
    simpl in Hseen. destruct Hseen as [_ Hseen].
    exists c, rest.
    destruct r1 as [reply | e].
    + destruct Hseen as [Hh [res [-> _]]]. exists [AIMessage reply].
      repeat split; auto.
      destruct (View.showsResult (analysis res)); reflexivity.
    + destruct Hseen as [Hh ->]. exists []. repeat split; auto.
Qed.

(** X19.  Once a conversation has been started on a ready model, every
    sequence of typing, sending and restarting leaves the view in step
    with the service: its user and ai messages are the history, or the
    history after the fallback welcome, which the service never recorded;
    the loading flag is released; and the completion flag is set exactly
    when a result is shown. *)
Theorem view_mirrors_history :
  forall (toLowerCase : jsstring -> jsstring)
         (JSON_parse : jsstring -> option jsvalue) (cfg : Config)
         (v : View.View) (st : State) (r : GatewayResult)
         (actions : list View.Action),
    isModelReady st = true ->
    let out := View.use toLowerCase JSON_parse cfg
                 (View.startNewConversation v st r) actions in
    (View.shownTurns (View.messages (fst out)) = conversationHistory (snd out) \/
     View.shownTurns (View.messages (fst out))
       = AIMessage welcomeFallback :: conversationHistory (snd out)) /\
    View.isLoading (fst out) = false /\
    View.isAnalysisComplete (fst out)
      = existsb View.isResult (View.messages (fst out)).
Proof.
  intros toLowerCase JSON_parse cfg v st r actions Hready out.
  assert (H : inStep out).
  { apply use_inStep, startNewConversation_inStep, Hready. }
  destruct H as [_ [Hl [Hd Hs]]]. auto.
Qed.

(** X21.  When the trigger fires and the analysis call fails, the view shows
    the default ENFP result as the result of the assessment and marks the
    session complete, while the service has recorded no type. *)
Theorem failed_analysis_is_shown_as_result :
  forall (toLowerCase : jsstring -> jsstring)
         (JSON_parse : jsstring -> option jsvalue) (cfg : Config)
         (v : View.View) (st : State) (reply e : jsstring),
    View.canSendMessage v = true ->
    isModelReady st = true ->
    isAnalyzing st = false ->
    shouldAnalyze toLowerCase cfg
      (afterReply st (View.trim (View.inputMessage v)) reply) reply = true ->
    let out := View.sendMessage toLowerCase JSON_parse cfg v st
                 (GatewayReply reply) (GatewayError e) in
    View.messages (fst out)
      = View.messages v
        ++ [ View.Text (View.trim (View.inputMessage v)) View.user;
             View.Text reply View.ai;
             View.Result generateFallbackAnalysis;
             View.Text View.doneNotice View.system ] /\
    View.isAnalysisComplete (fst out) = true /\
    mbtiType (userInfo (snd out)) = mbtiType (userInfo st).
Proof.
  intros toLowerCase JSON_parse cfg v st reply e Hcan Hready Hfree Htrig out.
  unfold out, View.sendMessage. rewrite Hcan. cbn [negb].
  unfold sendMessage, sendMessage_begin, sendMessage_onReply.
  rewrite Hready. cbn [negb].
  fold (afterReply st (View.trim (View.inputMessage v)) reply).
  rewrite Htrig. unfold performMBTIAnalysis_begin.
  change (isAnalyzing (afterReply st (View.trim (View.inputMessage v)) reply))
    with (isAnalyzing st).
  rewrite Hfree. simpl. rewrite <- !app_assoc. simpl. auto.
Qed.

Lemma view_send_failure
    (toLowerCase : jsstring -> jsstring)
    (JSON_parse : jsstring -> option jsvalue) (cfg : Config)
    (v : View.View) (st : State) (e : jsstring) (r : GatewayResult) :
  View.canSendMessage v = true -> isModelReady st = true ->
  let out := View.sendMessage toLowerCase JSON_parse cfg v st (GatewayError e) r in
  View.messages (fst out)
    = View.messages v
      ++ [ View.Text (View.trim (View.inputMessage v)) View.user;
           View.Text (js "❌ 发送失败: " ++ js "AI请求失败: " ++ e) View.system ] /\
  View.isLoading (fst out) = false /\
  isModelReady (snd out) = true /\
  conversationHistory (snd out)
    = conversationHistory st ++ [HumanMessage (View.trim (View.inputMessage v))].
Proof.
  intros Hcan Hready. unfold View.sendMessage. rewrite Hcan. cbn [negb].
  pose proof (sendMessage_seen toLowerCase JSON_parse cfg st
                (View.trim (View.inputMessage v)) (GatewayError e) r Hready) as H.
  destruct (sendMessage toLowerCase JSON_parse cfg st
              (View.trim (View.inputMessage v)) (GatewayError e) r) as [st' o].
  simpl in H. destruct H as [Hr [Hh ->]]. simpl.
  rewrite <- app_assoc. auto.
Qed.

Lemma view_send_reply
    (toLowerCase : jsstring -> jsstring)
    (JSON_parse : jsstring -> option jsvalue) (cfg : Config)
    (v : View.View) (st : State) (reply : jsstring) (r : GatewayResult) :
  View.canSendMessage v = true -> isModelReady st = true ->
  let out := View.sendMessage toLowerCase JSON_parse cfg v st
               (GatewayReply reply) r in
  (exists more,
     View.messages (fst out)
     = View.messages v
       ++ [ View.Text (View.trim (View.inputMessage v)) View.user;
            View.Text reply View.ai ] ++ more) /\
  conversationHistory (snd out)
    = conversationHistory st
      ++ [HumanMessage (View.trim (View.inputMessage v)); AIMessage reply].
Proof.
  intros Hcan Hready. unfold View.sendMessage. rewrite Hcan. cbn [negb].
  pose proof (sendMessage_seen toLowerCase JSON_parse cfg st
                (View.trim (View.inputMessage v)) (GatewayReply reply) r Hready)
    as H.
  destruct (sendMessage toLowerCase JSON_parse cfg st
              (View.trim (View.inputMessage v)) (GatewayReply reply) r)
    as [st' o].
  simpl in H. destruct H as [_ [Hh [res [-> Hmsg]]]]. simpl.
  split; [|exact Hh].
  destruct (View.showsResult (analysis res)); simpl; rewrite Hmsg.
  - exists [View.Result (analysis res); View.Text View.doneNotice View.system].
    rewrite <- !app_assoc. reflexivity.
  - exists []. rewrite <- !app_assoc. reflexivity.
Qed.

(** X22.  A send that fails is not rolled back: the user's message stays in the
    history of the service, so sending the same text again hands the
    model the message twice; the view shows the service's error under its
    own prefix. *)
Theorem failed_send_is_not_rolled_back :
  forall (toLowerCase : jsstring -> jsstring)
         (JSON_parse : jsstring -> option jsvalue) (cfg : Config)
         (v : View.View) (st : State) (text e reply : jsstring)
         (r r' : GatewayResult),
    View.isLoading v = false ->
    View.trim text <> [] ->
    isModelReady st = true ->
    let out := View.use toLowerCase JSON_parse cfg (v, st)
                 [ View.TypeInput text; View.PressSend (GatewayError e) r;
                   View.TypeInput text; View.PressSend (GatewayReply reply) r' ] in
    conversationHistory (snd out)
      = conversationHistory st
        ++ [ HumanMessage (View.trim text); HumanMessage (View.trim text);
             AIMessage reply ] /\
    exists more,
      View.messages (fst out)
      = View.messages v
        ++ [ View.Text (View.trim text) View.user;
             View.Text (js "❌ 发送失败: " ++ js "AI请求失败: " ++ e) View.system;
             View.Text (View.trim text) View.user;
             View.Text reply View.ai ] ++ more.
Proof.
  intros toLowerCase JSON_parse cfg v st text e reply r r' Hload Hne Hready out.
  assert (Hcan : forall w, View.isLoading w = false ->
                   View.canSendMessage (View.set_inputMessage w text) = true).
  { intros w Hw. unfold View.canSendMessage. simpl. rewrite Hw. simpl.
    apply Nat.ltb_lt. destruct (View.trim text); [congruence | simpl; lia]. }
  set (vs1 := View.sendMessage toLowerCase JSON_parse cfg
                (View.set_inputMessage v text) st (GatewayError e) r).
  destruct (view_send_failure toLowerCase JSON_parse cfg
              (View.set_inputMessage v text) st e r (Hcan v Hload) Hready)
    as [Hm1 [Hl1 [Hr1 Hh1]]].
  fold vs1 in Hm1, Hl1, Hr1, Hh1.
  destruct (view_send_reply toLowerCase JSON_parse cfg
              (View.set_inputMessage (fst vs1) text) (snd vs1) reply r'
              (Hcan (fst vs1) Hl1) Hr1)
    as [[more Hm2] Hh2].
  change out with (View.sendMessage toLowerCase JSON_parse cfg
                     (View.set_inputMessage (fst vs1) text) (snd vs1)
                     (GatewayReply reply) r').
  split.
  - rewrite Hh2, Hh1, <- app_assoc. reflexivity.
  - exists more. rewrite Hm2. simpl View.messages. rewrite Hm1.
    simpl. rewrite <- !app_assoc. reflexivity.
Qed.

Lemma messageStats_shown (l : list View.Message) :
  List.length (filter (View.isType View.user) l)
    = List.length (filter (fun m => negb (isAI m)) (View.shownTurns l)) /\
  List.length (filter (View.isType View.ai) l)
    = List.length (filter isAI (View.shownTurns l)).
Proof.
  induction l as [|m l [IH1 IH2]]; simpl; [split; reflexivity|].
  destruct m as [c [| |] | d]; simpl; rewrite ?IH1, ?IH2; split; reflexivity.
Qed.

(** X20.  In sequential use after a start on a ready model, the statistics of
    the view agree with the service: [userMessages] is the number of user
    turns of the history, and [aiMessages] the number of its assistant
    turns, or one more when the fallback welcome is on show. *)
Theorem view_statistics :
  forall (toLowerCase : jsstring -> jsstring)
         (JSON_parse : jsstring -> option jsvalue) (cfg : Config)
         (v : View.View) (st : State) (r : GatewayResult)
         (actions : list View.Action),
    isModelReady st = true ->
    let out := View.use toLowerCase JSON_parse cfg
                 (View.startNewConversation v st r) actions in
    fst (View.messageStats (fst out))
      = List.length (filter (fun m => negb (isAI m))
                       (conversationHistory (snd out))) /\
    (N.of_nat (snd (View.messageStats (fst out))) = assistantTurns (snd out) \/
     N.of_nat (snd (View.messageStats (fst out)))
       = (assistantTurns (snd out) + 1)%N).
Proof.
  intros toLowerCase JSON_parse cfg v st r actions Hready out.
  assert (H : inStep out).
  { apply use_inStep, startNewConversation_inStep, Hready. }
  destruct H as [_ [_ [_ Hs]]].
  destruct (messageStats_shown (View.messages (fst out))) as [Hu Ha].
  unfold View.messageStats, assistantTurns. cbn [fst snd].
  rewrite Hu, Ha. destruct Hs as [-> | ->]; simpl.
  - split; [reflexivity | now left].
  - split; [reflexivity | right; lia].
Qed.

(* ================================================================= *)
(** * Prompt and configuration together; the recorded type *)

(** X13.  The three words the system prompt asks the model to use when it has
    gathered enough are configured trigger phrases: from the fourth
    counted reply on, a reply that holds one of them starts the
    analysis. *)
Theorem prompted_words_trigger :
  forall (toLowerCase : jsstring -> jsstring) (st : State) (reply : jsstring),
    (4 <= questionsAsked (userInfo st))%N ->
    substring_of (js "分析") reply \/ substring_of (js "总结") reply \/
    substring_of (js "结论") reply ->
    shouldAnalyze toLowerCase AI_CONFIG st reply = true /\
    substring_of (dq "分析") systemPromptHead /\
    substring_of (dq "总结") systemPromptHead /\
    substring_of (dq "结论") systemPromptHead.
Proof.
  intros toLowerCase st reply Hq Hword. split.
  - apply shouldAnalyze_trigger_phrase; [exact Hq|].
    unfold hasTriggerPhrase.
    destruct Hword as [H | [H | H]];
      [exists (js "分析") | exists (js "总结") | exists (js "结论")];
      (split; [simpl; tauto | exact H]).
  - repeat split; apply includes_spec; vm_compute; reflexivity.
Qed.

Lemma step_recorded_type
    (toLowerCase : jsstring -> jsstring)
    (JSON_parse : jsstring -> option jsvalue) (cfg : Config)
    (s : Sys) (e : Event) :
  mbtiType (userInfo (state s)) = JNull \/
  truthy (mbtiType (userInfo (state s))) = true ->
  mbtiType (userInfo (state (step toLowerCase JSON_parse cfg s e))) = JNull \/
  truthy (mbtiType (userInfo (state (step toLowerCase JSON_parse cfg s e)))) = true.
Proof.
  destruct s as [st pend sess ra wa]. simpl. intros H.
  destruct e as [m | | | i r]; simpl.
  - unfold sendMessage_begin. destruct (isModelReady st); exact H.
  - destruct (isModelReady st); exact H.
  - now left.
  - destruct (nth_error pend i) as [t|]; simpl; [|exact H].
    destruct t as [| response issued |]; simpl.
    + unfold sendMessage_onReply, performMBTIAnalysis_begin.
      destruct r as [reply | msg]; simpl; [|exact H].
      destruct (shouldAnalyze _ _ _ _); simpl;
        [destruct (isAnalyzing st); simpl|]; exact H.
    + unfold sendMessage_onAnalysis, performMBTIAnalysis_resume,
        performMBTIAnalysis_try.
      destruct r as [reply | msg]; simpl; [|exact H].
      destruct (truthy (recoveredType (parseAnalysisResult JSON_parse reply)))
        eqn:Hok; simpl; [now right | exact H].
    + destruct r as [reply | msg]; simpl; exact H.
Qed.

(** X11.  In every execution the recorded [mbtiType] is [null] or a truthy
    value: only an analysis whose result was parsed writes it, the
    default result never does, and a reset clears it. *)
Theorem recorded_type_is_null_or_truthy :
  forall (toLowerCase : jsstring -> jsstring)
         (JSON_parse : jsstring -> option jsvalue) (cfg : Config)
         (ready : bool) (trace : list Event),
    let s := run toLowerCase JSON_parse cfg (initialSys ready) trace in
    mbtiType (userInfo (state s)) = JNull \/
    truthy (mbtiType (userInfo (state s))) = true.
Proof.
  intros toLowerCase JSON_parse cfg ready trace.
  assert (Hgen : forall s,
            (mbtiType (userInfo (state s)) = JNull \/
             truthy (mbtiType (userInfo (state s))) = true) ->
            mbtiType (userInfo (state (run toLowerCase JSON_parse cfg s trace)))
              = JNull \/
            truthy (mbtiType (userInfo
                      (state (run toLowerCase JSON_parse cfg s trace)))) = true).
  { induction trace as [|e trace IH]; intros s H; [exact H|].
    change (run toLowerCase JSON_parse cfg s (e :: trace))
      with (run toLowerCase JSON_parse cfg
              (step toLowerCase JSON_parse cfg s e) trace).
    apply IH, step_recorded_type, H. }
  apply Hgen. now left.
Qed.

Lemma includes_absent_LF (m : Msg) :
  includes (content m) [LF] = false -> ~ In LF (content m).
Proof.
  intros H Hin. apply in_split in Hin as [l1 [l2 E]].
  assert (includes (content m) [LF] = true); [|congruence].
  apply includes_spec. exists l1, l2. exact E.
Qed.

(* ================================================================= *)
(** * These properties at sample inputs *)

Lemma hint_lags_the_trigger_witness :
  progressHint AI_CONFIG (Samples.sessionWith Samples.plainHistory 3)
    <> hintEnough /\
  exists res,
    snd (sendMessage toLowerCase_ascii JSON_parse_ref AI_CONFIG
           (Samples.sessionWith Samples.plainHistory 3) (js "好")
           (GatewayReply Samples.replyWithPhrase)
           (GatewayReply Samples.typeLineOnly)) = Returns res /\
    isComplete res = true.
Proof.
  apply (hint_lags_the_trigger toLowerCase_ascii JSON_parse_ref AI_CONFIG
           (Samples.sessionWith Samples.plainHistory 3) (js "好")
           Samples.replyWithPhrase (GatewayReply Samples.typeLineOnly)).
  - reflexivity.
  - reflexivity.
  - exists (js "分析"). split; [simpl; auto|].
    exists (js "好的，让我来"), (js "一下。"). reflexivity.
Defined.

Lemma transcript_determines_history_witness :
  transcript [HumanMessage (js "好" ++ [LF] ++ js "AI: " ++ js "结论是INTJ")]
  = transcript [HumanMessage (js "好"); AIMessage (js "结论是INTJ")].
Proof.
  apply (transcript_determines_history Samples.plainHistory Samples.twoAxes).
  intros m Hm. apply includes_absent_LF.
  simpl in Hm.
  repeat (destruct Hm as [<- | Hm]; [vm_compute; reflexivity|]).
  contradiction.
Defined.

Lemma validateConfig_never_fails_witness :
  validateConfig (apiKey JUndefined (JString (js "sk-placeholder"))) = true /\
  validateConfig (apiKey (JString []) (JString (js "sk-placeholder"))) = true.
Proof.
  split.
  - apply (validateConfig_never_fails JUndefined (js "sk-placeholder") true
             moduleLoad). discriminate.
  - apply (validateConfig_never_fails (JString []) (js "sk-placeholder") true
             moduleLoad). discriminate.
Defined.

Lemma initializeDeepSeekModel_outcomes_witness :
  isModelReadyOf
    (fst (initializeDeepSeekModel (JString []) true
            {| chatModel := Some (chatModelOptions (JString (js "k")));
               isInitialized := true |})) = true /\
  snd (initializeDeepSeekModel (JString []) true
         {| chatModel := Some (chatModelOptions (JString (js "k")));
            isInitialized := true |}) = false.
Proof.
  destruct (proj2 (proj2 (proj2
             (initializeDeepSeekModel_outcomes (JString []) true
                {| chatModel := Some (chatModelOptions (JString (js "k")));
                   isInitialized := true |}))) eq_refl) as [H1 H2].
  split; [rewrite H1; reflexivity | exact H2].
Defined.

Lemma view_send_gate_witness :
  View.sendMessage toLowerCase_ascii JSON_parse_ref AI_CONFIG
    (View.set_inputMessage typedView (js "  ")) welcomed
    (GatewayReply Samples.plainReply) (GatewayError (js "unused"))
  = (View.set_inputMessage typedView (js "  "), welcomed) /\
  exists c rest tail,
    View.trim (View.inputMessage typedView) = c :: rest /\
    conversationHistory
      (snd (View.sendMessage toLowerCase_ascii JSON_parse_ref AI_CONFIG
              typedView welcomed (GatewayReply Samples.plainReply)
              (GatewayError (js "unused"))))
    = conversationHistory welcomed ++ HumanMessage (c :: rest) :: tail.
Proof.
  split.
  - apply (view_send_gate toLowerCase_ascii JSON_parse_ref AI_CONFIG
             (View.set_inputMessage typedView (js "  ")) welcomed
             (GatewayReply Samples.plainReply) (GatewayError (js "unused"))).
    right. reflexivity.
  - destruct (proj2 (view_send_gate toLowerCase_ascii JSON_parse_ref AI_CONFIG
                       typedView welcomed (GatewayReply Samples.plainReply)
                       (GatewayError (js "unused"))) eq_refl eq_refl)
      as [c [rest [tail [H1 [_ [_ [H2 _]]]]]]].
    exists c, rest, tail. split; [exact H1 | exact H2].
Defined.

Lemma view_mirrors_history_witness :
  View.isLoading
    (fst (View.use toLowerCase_ascii JSON_parse_ref AI_CONFIG
            (View.startNewConversation View.mounted (initialState true)
               (GatewayError (js "fetch failed")))
            [ View.TypeInput (js "我更喜欢独处");
              View.PressSend (GatewayReply Samples.plainReply)
                (GatewayError (js "unused")) ])) = false.
Proof.
  apply (view_mirrors_history toLowerCase_ascii JSON_parse_ref AI_CONFIG
           View.mounted (initialState true) (GatewayError (js "fetch failed"))
           [ View.TypeInput (js "我更喜欢独处");
             View.PressSend (GatewayReply Samples.plainReply)
               (GatewayError (js "unused")) ]).
  reflexivity.
Defined.

Lemma failed_analysis_is_shown_as_result_witness :
  View.isAnalysisComplete
    (fst (View.sendMessage toLowerCase_ascii JSON_parse_ref AI_CONFIG
            typedView (Samples.sessionWith Samples.plainHistory 3)
            (GatewayReply Samples.replyWithPhrase)
            (GatewayError (js "fetch failed")))) = true.
Proof.
  apply (failed_analysis_is_shown_as_result toLowerCase_ascii JSON_parse_ref
           AI_CONFIG typedView (Samples.sessionWith Samples.plainHistory 3)
           Samples.replyWithPhrase (js "fetch failed")).
  - reflexivity.
  - reflexivity.
  - reflexivity.
  - vm_compute; reflexivity.
Defined.

Lemma failed_send_is_not_rolled_back_witness :
  conversationHistory
    (snd (View.use toLowerCase_ascii JSON_parse_ref AI_CONFIG
            (typedView, welcomed)
            [ View.TypeInput (js " 独处 ");
              View.PressSend (GatewayError (js "fetch failed"))
                (GatewayError (js "unused"));
              View.TypeInput (js " 独处 ");
              View.PressSend (GatewayReply Samples.plainReply)
                (GatewayError (js "unused")) ]))
  = conversationHistory welcomed
    ++ [ HumanMessage (View.trim (js " 独处 "));
         HumanMessage (View.trim (js " 独处 "));
         AIMessage Samples.plainReply ].
Proof.
  apply (failed_send_is_not_rolled_back toLowerCase_ascii JSON_parse_ref
           AI_CONFIG typedView welcomed (js " 独处 ") (js "fetch failed")
           Samples.plainReply (GatewayError (js "unused"))
           (GatewayError (js "unused"))).
  - reflexivity.
  - vm_compute. discriminate.
  - reflexivity.
Defined.

Lemma prompted_words_trigger_witness :
  shouldAnalyze toLowerCase_ascii AI_CONFIG
    (Samples.sessionWith Samples.plainHistory 4) (js "下面给出我的结论") = true.
Proof.
  apply (prompted_words_trigger toLowerCase_ascii
           (Samples.sessionWith Samples.plainHistory 4) (js "下面给出我的结论")).
  - simpl. lia.
  - right. right. exists (js "下面给出我的"), []. reflexivity.
Defined.

Lemma view_statistics_witness :
  fst (View.messageStats
         (fst (View.use toLowerCase_ascii JSON_parse_ref AI_CONFIG
                 (View.startNewConversation View.mounted (initialState true)
                    (GatewayError (js "fetch failed")))
                 [ View.TypeInput (js "我更喜欢独处");
                   View.PressSend (GatewayReply Samples.plainReply)
                     (GatewayError (js "unused")) ])))
  = List.length
      (filter (fun m => negb (isAI m))
         (conversationHistory
            (snd (View.use toLowerCase_ascii JSON_parse_ref AI_CONFIG
                    (View.startNewConversation View.mounted (initialState true)
                       (GatewayError (js "fetch failed")))
                    [ View.TypeInput (js "我更喜欢独处");
                      View.PressSend (GatewayReply Samples.plainReply)
                        (GatewayError (js "unused")) ])))).
Proof.
  apply (view_statistics toLowerCase_ascii JSON_parse_ref AI_CONFIG
           View.mounted (initialState true) (GatewayError (js "fetch failed"))
           [ View.TypeInput (js "我更喜欢独处");
             View.PressSend (GatewayReply Samples.plainReply)
               (GatewayError (js "unused")) ]).
  reflexivity.
Defined.

Lemma tier3_synthesis_witness :
  parseAnalysisResult JSON_parse_ref (js "类型: ESTP")
    = generateBasicAnalysis (js "ESTP") /\
  get_prop (parseAnalysisResult JSON_parse_ref (js "类型: ESTP")) (js "description")
    = Some (description typeInfo_ENFP).
Proof.
  destruct (tier3_synthesis JSON_parse_ref (js "类型: ESTP") (js "ESTP"))
    as [H1 [_ [_ [H2 _]]]].
  - vm_compute; reflexivity.
  - vm_compute; reflexivity.
  - discriminate.
  - split; [exact H1 | exact H2].
Defined.
